(** * Password_Complexity_Checker: a shallow embedding and its properties

    The development follows [password_complexity_checker.py].

    Python strings are modelled by [string], whose characters are the code
    points 0..255 (Latin-1).  On that range [str.lower], [str.strip], the
    regular-expression classes used by the program and the [in] operator are
    given below exactly as Python computes them.

    The two files the program opens are modelled by a [FileSystem]: a file is
    either absent (Python raises [FileNotFoundError], which the program
    catches) or present with its lines.  A file whose opening or reading
    raises another exception, which the program does not catch, is modelled
    by [Files] and the functions of the module [Raising].

    [math.log2] is modelled by the exact real logarithm in base two, of which
    the Python float is the rounding. *)

From Stdlib Require Import Bool Arith List Lia ZArith QArith Ascii String.
From Stdlib Require Import Reals Lra.
From Stdlib Require DecimalString.
Import ListNotations.

Local Open Scope string_scope.
Local Open Scope bool_scope.

(** ** Characters and strings *)

Definition ord (c : ascii) : nat := nat_of_ascii c.

Definition between (lo hi : nat) (c : ascii) : bool :=
  (lo <=? ord c)%nat && (ord c <=? hi)%nat.

(** The class [[A-Z]]. *)
Definition is_AZ (c : ascii) : bool := between 65 90 c.

(** The class [[a-z]]. *)
Definition is_az (c : ascii) : bool := between 97 122 c.

(** The class [\d]: the decimal digits of the modelled range are [0-9]. *)
Definition is_digit (c : ascii) : bool := between 48 57 c.

(** The class [[^a-zA-Z0-9]]. *)
Definition is_not_alnum (c : ascii) : bool :=
  negb (is_az c || is_AZ c || is_digit c).

Definition double_quote : ascii := ascii_of_nat 34.
Definition newline : ascii := ascii_of_nat 10.

Fixpoint mem_char (c : ascii) (s : string) : bool :=
  match s with
  | EmptyString => false
  | String d s' => Ascii.eqb c d || mem_char c s'
  end.

(** The characters of the class in the [special_char] pattern: the thirteen
    signs before the escaped double quote, the double quote, and the six
    signs after it. *)
Definition special_chars : string :=
  "!@#$%^&*(),.?" ++ String double_quote ":{}|<>".

Definition is_special (c : ascii) : bool := mem_char c special_chars.

(** [bool(re.search(cls, s))] for a pattern that is one character class. *)
Fixpoint re_search_class (cls : ascii -> bool) (s : string) : bool :=
  match s with
  | EmptyString => false
  | String c s' => cls c || re_search_class cls s'
  end.

(** [str.lower] on one character: [A-Z] and the upper-case letters
    U+00C0..U+00DE (without the sign U+00D7) move up by 32. *)
Definition lower_char (c : ascii) : ascii :=
  if between 65 90 c || (between 192 222 c && negb (ord c =? 215)%nat)
  then ascii_of_nat (ord c + 32)
  else c.

Fixpoint lower (s : string) : string :=
  match s with
  | EmptyString => EmptyString
  | String c s' => String (lower_char c) (lower s')
  end.

(** The characters [str.strip] removes. *)
Definition is_space (c : ascii) : bool :=
  between 9 13 c || between 28 32 c || (ord c =? 133)%nat || (ord c =? 160)%nat.

Fixpoint lstrip (s : string) : string :=
  match s with
  | EmptyString => EmptyString
  | String c s' => if is_space c then lstrip s' else s
  end.

Fixpoint rstrip (s : string) : string :=
  match s with
  | EmptyString => EmptyString
  | String c s' =>
      match rstrip s' with
      | EmptyString => if is_space c then EmptyString else String c EmptyString
      | r => String c r
      end
  end.

Definition strip (s : string) : string := rstrip (lstrip s).

(** [sub in s] on strings. *)
Fixpoint contains (sub s : string) : bool :=
  prefix sub s ||
  match s with
  | EmptyString => false
  | String _ s' => contains sub s'
  end.

(** [x in l] on a list of strings. *)
Definition in_list (x : string) (l : list string) : bool :=
  existsb (String.eqb x) l.

(** [s.split(sep)[0]] for a one-character separator. *)
Fixpoint split_head (sep : ascii) (s : string) : string :=
  match s with
  | EmptyString => EmptyString
  | String c s' =>
      if Ascii.eqb c sep then EmptyString else String c (split_head sep s')
  end.

(** [s[::-1]]. *)
Fixpoint reverse (s : string) : string :=
  match s with
  | EmptyString => EmptyString
  | String c s' => reverse s' ++ String c EmptyString
  end.

(** [s[i:i+n]]. *)
Definition slice (i n : nat) (s : string) : string := substring i n s.

(** Truth value of a string: empty strings are false. *)
Definition truthy (s : string) : bool :=
  match s with EmptyString => false | _ => true end.

(** ** Files *)

Record FileSystem : Type := {
  common_passwords_txt : option (list string);
  usr_share_dict_words : option (list string)
}.

(** ** The checker object *)

Record Password_Complexity_Checker : Type := {
  password : string;
  username : string;
  email : string;
  old_password : string;
  common_passwords : list string;
  criteria : list (string * bool)
}.

Definition set_common_passwords (self : Password_Complexity_Checker)
    (v : list string) : Password_Complexity_Checker :=
  {| password := password self; username := username self;
     email := email self; old_password := old_password self;
     common_passwords := v; criteria := criteria self |}.

Definition set_criteria (self : Password_Complexity_Checker)
    (v : list (string * bool)) : Password_Complexity_Checker :=
  {| password := password self; username := username self;
     email := email self; old_password := old_password self;
     common_passwords := common_passwords self; criteria := v |}.

Definition default_common_passwords : list string :=
  ["password"; "123456"; "qwerty"; "letmein"; "welcome";
   "admin"; "12345678"; "123456789"; "123123"; "111111"].

Definition _load_common_passwords (fs : FileSystem) : list string :=
  match common_passwords_txt fs with
  | Some f => map (fun line => lower (strip line)) f
  | None => default_common_passwords
  end.

Definition sequences : list string :=
  ["abcdefghijklmnopqrstuvwxyz";
   "zyxwvutsrqponmlkjihgfedcba";
   "01234567890";
   "9876543210";
   "qwertyuiop";
   "poiuytrewq";
   "asdfghjkl";
   "lkjhgfdsa";
   "zxcvbnm";
   "mnbvcxz"].

Definition _has_sequential_chars (self : Password_Complexity_Checker) : bool :=
  let password_lower := lower (password self) in
  existsb (fun seq => contains seq password_lower) sequences.

(** [re.search] with the pattern [(.)\1\1], as a truth value: [.] is any
    character but the line feed, and the two back-references repeat it. *)
Fixpoint re_search_triple (s : string) : bool :=
  match s with
  | String a ((String b (String c _)) as s') =>
      (negb (Ascii.eqb a newline) && Ascii.eqb b a && Ascii.eqb c a)
      || re_search_triple s'
  | _ => false
  end.

Definition _has_repeated_chars (self : Password_Complexity_Checker) : bool :=
  re_search_triple (password self).

Definition _contains_personal_info (self : Password_Complexity_Checker) : bool :=
  if negb (truthy (username self)) && negb (truthy (email self)) then false
  else
    let personal_info : list string := [] in
    let personal_info :=
      if truthy (username self)
      then (personal_info ++ [lower (username self)])%list else personal_info in
    let personal_info :=
      if truthy (email self)
      then (personal_info ++ [lower (split_head "@" (email self))])%list
      else personal_info in
    existsb (fun info => contains info (lower (password self))) personal_info.

Definition _is_similar_to_old (self : Password_Complexity_Checker) : bool :=
  if negb (truthy (old_password self)) then false
  else
    String.eqb (lower (password self)) (lower (old_password self))
    || contains (lower (old_password self)) (lower (password self)).

Definition _contains_dictionary_word (fs : FileSystem)
    (self : Password_Complexity_Checker) : bool :=
  match usr_share_dict_words fs with
  | None => false
  | Some f =>
      let dictionary := map (fun word => lower (strip word)) f in
      existsb (fun word => contains word (lower (password self)))
              (filter (fun word => (3 <? String.length word)%nat) dictionary)
  end.

Definition keyboard_rows : list string :=
  ["qwertyuiop"; "asdfghjkl"; "zxcvbnm"; "1234567890"].

Definition _has_keyboard_pattern (self : Password_Complexity_Checker) : bool :=
  let password_lower := lower (password self) in
  existsb
    (fun row =>
       existsb
         (fun i =>
            contains (slice i 4 row) password_lower
            || contains (reverse (slice i 4 row)) password_lower)
         (seq 0 (String.length row - 3)))
    keyboard_rows.

Definition _initialize_criteria (fs : FileSystem)
    (self : Password_Complexity_Checker) : list (string * bool) :=
  [("length", (12 <=? String.length (password self))%nat);
   ("uppercase", re_search_class is_AZ (password self));
   ("lowercase", re_search_class is_az (password self));
   ("number", re_search_class is_digit (password self));
   ("special_char", re_search_class is_special (password self));
   ("not_common", negb (in_list (lower (password self)) (common_passwords self)));
   ("no_sequential", negb (_has_sequential_chars self));
   ("no_repeated", negb (_has_repeated_chars self));
   ("no_personal_info", negb (_contains_personal_info self));
   ("not_similar_old", negb (_is_similar_to_old self));
   ("no_dict_words", negb (_contains_dictionary_word fs self));
   ("no_keyboard_patterns", negb (_has_keyboard_pattern self))].

Definition __init__ (fs : FileSystem) (password username email old_password : string)
  : Password_Complexity_Checker :=
  let self :=
    {| password := password; username := username; email := email;
       old_password := old_password; common_passwords := []; criteria := [] |} in
  let self := set_common_passwords self (_load_common_passwords fs) in
  set_criteria self (_initialize_criteria fs self).

(** ** Entropy *)

Definition pool_size (pw : string) : Z :=
  let pool_size := 0%Z in
  let pool_size := if re_search_class is_az pw then (pool_size + 26)%Z else pool_size in
  let pool_size := if re_search_class is_AZ pw then (pool_size + 26)%Z else pool_size in
  let pool_size := if re_search_class is_digit pw then (pool_size + 10)%Z else pool_size in
  let pool_size := if re_search_class is_not_alnum pw then (pool_size + 32)%Z else pool_size in
  pool_size.

(** [math.log2] as the real logarithm in base two. *)
Definition log2 (x : R) : R := (ln x / ln 2)%R.

Definition calculate_entropy (self : Password_Complexity_Checker) : R :=
  let pool_size := pool_size (password self) in
  if (pool_size =? 0)%Z then 0%R
  else log2 (IZR (pool_size ^ Z.of_nat (String.length (password self)))).

(** ** Classification and report *)

Definition Rgeb (x y : R) : bool := if Rge_dec x y then true else false.

Definition _get_strength_label (score : Z) (entropy : R) : string :=
  if (10 <=? score)%Z && Rgeb entropy 75 then "excellent"
  else if (8 <=? score)%Z && Rgeb entropy 60 then "very_strong"
  else if (6 <=? score)%Z && Rgeb entropy 45 then "strong"
  else if (4 <=? score)%Z && Rgeb entropy 30 then "moderate"
  else if (2 <=? score)%Z then "weak"
  else "very_weak".

Record Analysis : Type := {
  score : Z;
  total_possible : Z;
  strength : string;
  entropy : R;
  is_strong : bool;
  failed_checks : list string
}.

(** [sum(d.values())] for a dictionary of booleans. *)
Definition sum_values (d : list (string * bool)) : Z :=
  fold_left (fun (acc : Z) (kv : string * bool) =>
               (acc + (if snd kv then 1 else 0))%Z) d 0%Z.

Definition analyze (self : Password_Complexity_Checker) : Analysis :=
  let score := sum_values (criteria self) in
  let total_criteria := Z.of_nat (List.length (criteria self)) in
  let entropy := calculate_entropy self in
  let strength := _get_strength_label score entropy in
  {| score := score;
     total_possible := total_criteria;
     strength := strength;
     entropy := entropy;
     is_strong := Qle_bool (inject_Z total_criteria * 0.75) (inject_Z score);
     failed_checks := map fst (filter (fun kv : string * bool => negb (snd kv)) (criteria self)) |}.

(** ** Vocabulary of the statements *)

(** [is_substring sub s]: [sub] occurs in [s] as a contiguous block. *)
Definition is_substring (sub s : string) : Prop :=
  exists pre post, s = pre ++ sub ++ post.

(** [char_in c s]: the character [c] occurs in [s]. *)
Definition char_in (c : ascii) (s : string) : Prop :=
  In c (list_ascii_of_string s).

(** [has_triple_run s]: some character occurs three times in a row in [s]. *)
Definition has_triple_run (s : string) : Prop :=
  exists c pre post, s = pre ++ String c (String c (String c post)).

(** One step of [sum] over the values of the criteria map. *)
Definition count_step (acc : Z) (kv : string * bool) : Z :=
  (acc + (if snd kv then 1 else 0))%Z.

(** A file system on which neither file exists. *)
Definition fs_absent : FileSystem :=
  {| common_passwords_txt := None; usr_share_dict_words := None |}.

(** The checker built with a candidate alone, as [main] does. *)
Definition checker (fs : FileSystem) (pw : string) : Password_Complexity_Checker :=
  __init__ fs pw "" "" "".

(** [contributes present n k]: a character class adds [n] to the alphabet
    size when one of its characters is present, and nothing otherwise. *)
Definition contributes (present : Prop) (n k : Z) : Prop :=
  (present /\ k = n) \/ (~ present /\ k = 0%Z).

(** The four buckets of the entropy estimate, by character code. *)
Definition lowercase_letter (c : ascii) : Prop := (97 <= ord c <= 122)%nat.
Definition uppercase_letter (c : ascii) : Prop := (65 <= ord c <= 90)%nat.
Definition decimal_digit (c : ascii) : Prop := (48 <= ord c <= 57)%nat.
Definition non_alphanumeric (c : ascii) : Prop :=
  ~ (lowercase_letter c \/ uppercase_letter c \/ decimal_digit c).

(** The twelve check names, in the order of the criteria map. *)
Definition check_names : list string :=
  ["length"; "uppercase"; "lowercase"; "number"; "special_char"; "not_common";
   "no_sequential"; "no_repeated"; "no_personal_info"; "not_similar_old";
   "no_dict_words"; "no_keyboard_patterns"].

(** [subsequence l m]: [l] is obtained from [m] by dropping elements. *)
Inductive subsequence {A : Type} : list A -> list A -> Prop :=
  | subsequence_nil : subsequence [] []
  | subsequence_skip (x : A) (l m : list A) :
      subsequence l m -> subsequence l (x :: m)
  | subsequence_keep (x : A) (l m : list A) :
      subsequence l m -> subsequence (x :: l) (x :: m).

(** Whether [key] is among the failed checks of the analysis of [self]. *)
Definition fails (self : Password_Complexity_Checker) (key : string) : Prop :=
  In key (failed_checks (analyze self)).

(** A line feed at the end of a line read from a file. *)
Definition line (s : string) : string := s ++ String newline "".

(** [d.get(k)] on the criteria map. *)
Fixpoint lookup (k : string) (d : list (string * bool)) : option bool :=
  match d with
  | [] => None
  | (k', v) :: d' => if String.eqb k k' then Some v else lookup k d'
  end.

(** The characters of the classes [[a-z]], [[A-Z]] and [\d] together. *)
Definition ascii_letter_or_digit (c : ascii) : bool :=
  is_az c || is_AZ c || is_digit c.

(** A file system whose two files list the candidate zxcvbnmmm and a part
    of it. *)
Definition fs_hostile : FileSystem :=
  {| common_passwords_txt := Some [line "zxcvbnmmm"];
     usr_share_dict_words := Some [line "zxcv"] |}.

(** The six labels, from the weakest (0) to the strongest (5). *)
Definition label_rank (l : string) : nat :=
  if String.eqb l "excellent" then 5
  else if String.eqb l "very_strong" then 4
  else if String.eqb l "strong" then 3
  else if String.eqb l "moderate" then 2
  else if String.eqb l "weak" then 1
  else 0.

(** ** The suggestion generator *)

(** [str(n)] for a natural number. *)
Definition str_of_nat (n : nat) : string :=
  DecimalString.NilEmpty.string_of_uint (Nat.to_uint n).

(** The format [{n:02d}]: the decimal digits, padded with zeros on the left
    to two characters. *)
Definition format_02d (n : nat) : string :=
  let s := str_of_nat n in
  if (String.length s <? 2)%nat then "0" ++ s else s.

Definition adjectives : list string :=
  ["Red"; "Blue"; "Happy"; "Secure"; "Strong"].

Definition nouns : list string :=
  ["Dragon"; "Coffee"; "Mountain"; "Shield"; "Castle"].

(** The outcomes of the four random draws of [create_secure_password], in
    the order the code makes them: an index into the eight symbols, the value
    of [randbelow(90)], and the indices into the adjectives and the nouns. *)
Record Draws : Type := {
  draw_special : nat;
  draw_number : nat;
  draw_adjective : nat;
  draw_noun : nat
}.

(** The outcomes the random source can produce. *)
Definition possible (d : Draws) : Prop :=
  (draw_special d < 8)%nat /\ (draw_number d < 90)%nat
  /\ (draw_adjective d < 5)%nat /\ (draw_noun d < 5)%nat.

(** [secrets.choice] on a string, with the index drawn. *)
Definition choice_char (s : string) (i : nat) : string :=
  match get i s with
  | Some c => String c EmptyString
  | None => EmptyString
  end.

(** [secrets.choice] on a list, with the index drawn. *)
Definition choice (l : list string) (i : nat) : string := nth i l EmptyString.

Definition create_secure_password (d : Draws) : string :=
  let special := choice_char "!@#$%^&*" (draw_special d) in
  let number := format_02d (draw_number d + 10) in
  choice adjectives (draw_adjective d) ++ choice nouns (draw_noun d)
  ++ number ++ special.

(** [all_class cls s]: every character of [s] is in the class. *)
Fixpoint all_class (cls : ascii -> bool) (s : string) : bool :=
  match s with
  | EmptyString => true
  | String c s' => cls c && all_class cls s'
  end.

(** The class of the ASCII letters. *)
Definition is_letter (c : ascii) : bool := is_az c || is_AZ c.

(** The strings the keyboard-pattern detector looks for. *)
Definition keyboard_needles : list string :=
  flat_map
    (fun row =>
       flat_map (fun i => [slice i 4 row; reverse (slice i 4 row)])
                (seq 0 (String.length row - 3)))
    keyboard_rows.

(** [needle_absent lw k n]: the needle [n] is made of lowercase letters
    and does not occur in [lw], or it is made of digits and has more than
    [k] characters. *)
Definition needle_absent (lw : string) (k : nat) (n : string) : bool :=
  match n with
  | EmptyString => false
  | _ => (all_class is_az n && negb (contains n lw))
         || (all_class is_digit n && (k <? String.length n)%nat)
  end.

(** What the detectors need from the letters of a suggestion, an adjective
    followed by a noun: nine letters or more of both cases, no digit, no run
    of three, and none of the strings the sequence and keyboard detectors
    look for (before a tail of three characters without letters). *)
Definition word_ok (w : string) : bool :=
  (9 <=? String.length w)%nat
  && all_class is_letter w
  && re_search_class is_AZ w && re_search_class is_az w
  && negb (re_search_class is_digit w)
  && negb (re_search_class is_digit (lower w))
  && negb (re_search_triple w)
  && forallb (needle_absent (lower w) 3) sequences
  && forallb (needle_absent (lower w) 3) keyboard_needles.

(** ** Files that cannot be read *)

(** The state of a file the program opens: it does not exist ([open] raises
    [FileNotFoundError]), it is read and gives its lines, or opening or
    reading it raises another exception ([PermissionError],
    [IsADirectoryError], [UnicodeDecodeError]). *)
Inductive file : Type :=
  | Missing
  | Readable (lines : list string)
  | Failing.

Record Files : Type := {
  common_passwords_file : file;
  dict_words_file : file
}.

(** The result of a call: a value, or an exception that leaves the call. *)
Inductive outcome (A : Type) : Type :=
  | Returns (a : A)
  | Raises.

Arguments Returns {A} a.
Arguments Raises {A}.

(** The functions that open a file, with the exceptions they let through:
    only [FileNotFoundError] is caught. *)
Module Raising.

Definition _load_common_passwords (files : Files) : outcome (list string) :=
  match common_passwords_file files with
  | Readable f => Returns (map (fun line => lower (strip line)) f)
  | Missing => Returns default_common_passwords
  | Failing => Raises
  end.

Definition _contains_dictionary_word (files : Files)
    (self : Password_Complexity_Checker) : outcome bool :=
  match dict_words_file files with
  | Readable f =>
      let dictionary := map (fun word => lower (strip word)) f in
      Returns
        (existsb (fun word => contains word (lower (password self)))
                 (filter (fun word => (3 <? String.length word)%nat) dictionary))
  | Missing => Returns false
  | Failing => Raises
  end.

Definition _initialize_criteria (files : Files)
    (self : Password_Complexity_Checker) : outcome (list (string * bool)) :=
  match _contains_dictionary_word files self with
  | Raises => Raises
  | Returns dictionary_word =>
      Returns
        [("length", (12 <=? String.length (password self))%nat);
         ("uppercase", re_search_class is_AZ (password self));
         ("lowercase", re_search_class is_az (password self));
         ("number", re_search_class is_digit (password self));
         ("special_char", re_search_class is_special (password self));
         ("not_common",
          negb (in_list (lower (password self)) (common_passwords self)));
         ("no_sequential", negb (_has_sequential_chars self));
         ("no_repeated", negb (_has_repeated_chars self));
         ("no_personal_info", negb (_contains_personal_info self));
         ("not_similar_old", negb (_is_similar_to_old self));
         ("no_dict_words", negb dictionary_word);
         ("no_keyboard_patterns", negb (_has_keyboard_pattern self))]
  end.

Definition __init__ (files : Files) (password username email old_password : string)
  : outcome Password_Complexity_Checker :=
  let self :=
    {| password := password; username := username; email := email;
       old_password := old_password; common_passwords := []; criteria := [] |} in
  match _load_common_passwords files with
  | Raises => Raises
  | Returns v =>
      let self := set_common_passwords self v in
      match _initialize_criteria files self with
      | Raises => Raises
      | Returns c => Returns (set_criteria self c)
      end
  end.

End Raising.



(** The class of the ASCII characters. *)
Definition is_ascii (c : ascii) : bool := (ord c <? 128)%nat.

(** Whether the criteria map of [self] records the check [key] as failed. *)
Definition recorded_failed (self : Password_Complexity_Checker) (key : string)
  : bool :=
  match lookup key (criteria self) with
  | Some false => true
  | _ => false
  end.

(** * Properties *)

(** ** Strings *)

Lemma prefix_iff (p s : string) :
  prefix p s = true <-> exists t, s = p ++ t.
Proof.
  revert s; induction p as [|a p IH]; intros s.
  - destruct s; simpl; (split; [intros _; eexists; reflexivity | reflexivity]).
  - destruct s as [|b s]; simpl.
    + split; [discriminate | intros [t Ht]; discriminate].
    + destruct (Ascii.ascii_dec a b) as [->|Hab].
      * rewrite IH. split; intros [t Ht]; exists t; [now rewrite Ht | now inversion Ht].
      * split; [discriminate | intros [t Ht]; simpl in Ht; congruence].
Qed.

Lemma contains_iff (sub s : string) :
  contains sub s = true <-> is_substring sub s.
Proof.
  unfold is_substring. induction s as [|b s IH].
  - cbn [contains]. rewrite orb_false_r, prefix_iff. split.
    + intros [t Ht]. now exists "", t.
    + intros [pre [post H]]. destruct pre; simpl in H.
      * now exists post.
      * discriminate.
  - cbn [contains]. rewrite orb_true_iff, IH, prefix_iff. split.
    + intros [[t Ht]|[pre [post H]]].
      * now exists "", t.
      * exists (String b pre), post. simpl. now rewrite H.
    + intros [pre [post H]]. destruct pre as [|c pre]; simpl in H.
      * left. now exists post.
      * right. inversion H. now exists pre, post.
Qed.

Lemma length_append (s t : string) :
  String.length (s ++ t) = (String.length s + String.length t)%nat.
Proof. induction s; simpl; congruence. Qed.

Lemma contains_length (sub s : string) :
  contains sub s = true -> (String.length sub <= String.length s)%nat.
Proof.
  rewrite contains_iff. intros [pre [post ->]].
  rewrite !length_append. lia.
Qed.

Lemma length_lower (s : string) : String.length (lower s) = String.length s.
Proof. induction s; simpl; congruence. Qed.

Lemma contains_empty (s : string) : contains "" s = true.
Proof. destruct s; reflexivity. Qed.

Lemma prefix_nil_r (p : string) : prefix p "" = true -> p = "".
Proof. destruct p; [reflexivity | discriminate]. Qed.

Lemma contains_in_empty (sub : string) :
  contains sub "" = true -> sub = "".
Proof. destruct sub; [reflexivity | discriminate]. Qed.

Lemma re_search_class_iff (cls : ascii -> bool) (s : string) :
  re_search_class cls s = true <-> exists c, char_in c s /\ cls c = true.
Proof.
  unfold char_in. induction s as [|a s IH]; simpl.
  - split; [discriminate | intros [c [[] _]]].
  - rewrite orb_true_iff, IH. split.
    + intros [H|[c [Hc H]]]; [exists a | exists c]; auto.
    + intros [c [[<-|Hc] H]]; [now left | right; now exists c].
Qed.

Lemma existsb_false_iff {A} (f : A -> bool) (l : list A) :
  existsb f l = false <-> forall x, In x l -> f x = false.
Proof.
  induction l as [|a l IH]; simpl.
  - split; [intros _ x [] | reflexivity].
  - rewrite orb_false_iff, IH. split.
    + intros [Ha H] x [<-|Hx]; auto.
    + intros H; split; [apply H; now left | intros x Hx; apply H; now right].
Qed.

(** ** The criteria map and the report *)

Lemma fold_count_shift (d : list (string * bool)) (a : Z) :
  fold_left count_step d a = (a + fold_left count_step d 0)%Z.
Proof.
  revert a; induction d as [|kv d IH]; intros a; cbn [fold_left].
  - lia.
  - rewrite IH, (IH (count_step 0 kv)). unfold count_step. lia.
Qed.

Lemma sum_values_cons (kv : string * bool) (d : list (string * bool)) :
  sum_values (kv :: d) = ((if snd kv then 1 else 0) + sum_values d)%Z.
Proof.
  unfold sum_values. fold count_step. cbn [fold_left].
  rewrite fold_count_shift. unfold count_step. lia.
Qed.

(** Passing and failing entries partition the map. *)
Lemma sum_values_failed (d : list (string * bool)) :
  (sum_values d
   + Z.of_nat (List.length (filter (fun kv : string * bool => negb (snd kv)) d))
   = Z.of_nat (List.length d))%Z.
Proof.
  induction d as [|[k v] d IH].
  - reflexivity.
  - rewrite sum_values_cons. cbn [filter snd List.length].
    destruct v; cbn [negb List.length]; lia.
Qed.

Lemma sum_values_nonneg (d : list (string * bool)) : (0 <= sum_values d)%Z.
Proof.
  induction d as [|[k v] d IH].
  - reflexivity.
  - rewrite sum_values_cons. destruct v; cbn [snd]; lia.
Qed.

Lemma length_criteria (fs : FileSystem) (pw un em old : string) :
  List.length (criteria (__init__ fs pw un em old)) = 12%nat.
Proof. reflexivity. Qed.

Lemma total_possible_init (fs : FileSystem) (pw un em old : string) :
  total_possible (analyze (__init__ fs pw un em old)) = 12%Z.
Proof. reflexivity. Qed.

Lemma is_strong_threshold (self : Password_Complexity_Checker) :
  List.length (criteria self) = 12%nat ->
  (is_strong (analyze self) = true <-> (9 <= score (analyze self))%Z).
Proof.
  intros H. unfold analyze. cbn [is_strong score]. rewrite H.
  rewrite Qle_bool_iff. unfold Qle. cbn. lia.
Qed.

(** C1: for every candidate and every context, [is_strong] holds exactly
    when the score is at least 9 (of 12 checks).  The verdict is the boolean
    test [9 <= score]: it is a function of the score alone, and the entropy
    value does not enter it. *)
Theorem is_strong_iff_score_ge_9 (fs : FileSystem) (pw un em old : string) :
  let r := analyze (__init__ fs pw un em old) in
  (is_strong r = true <-> (9 <= score r)%Z)
  /\ is_strong r = (9 <=? score r)%Z.
Proof.
  intros r.
  assert (T : is_strong r = true <-> (9 <= score r)%Z)
    by apply is_strong_threshold, length_criteria.
  split; [exact T|].
  destruct (is_strong r); symmetry.
  - apply Z.leb_le, T; reflexivity.
  - apply Z.leb_gt. destruct (Z.lt_ge_cases (score r) 9) as [H|H]; [exact H|].
    apply T in H; discriminate.
Qed.

Lemma failed_checks_length (fs : FileSystem) (pw un em old : string) :
  let r := analyze (__init__ fs pw un em old) in
  Z.of_nat (List.length (failed_checks r)) = (12 - score r)%Z.
Proof.
  intros r. subst r. unfold analyze. cbn [failed_checks score].
  rewrite length_map.
  pose proof (sum_values_failed (criteria (__init__ fs pw un em old))) as H.
  rewrite length_criteria in H. lia.
Qed.

(** C2: for every candidate and every context, the score lies in [0, 12],
    [total_possible] is 12, and the number of failed checks is 12 minus the
    score. *)
Theorem analyze_score_bounds (fs : FileSystem) (pw un em old : string) :
  let r := analyze (__init__ fs pw un em old) in
  (0 <= score r <= 12)%Z
  /\ total_possible r = 12%Z
  /\ Z.of_nat (List.length (failed_checks r)) = (12 - score r)%Z.
Proof.
  intros r.
  pose proof (failed_checks_length fs pw un em old) as L. cbv zeta in L. fold r in L.
  split; [|split; [reflexivity | exact L]].
  pose proof (sum_values_nonneg (criteria (__init__ fs pw un em old))) as H0.
  change (score r) with (sum_values (criteria (__init__ fs pw un em old))) in *.
  lia.
Qed.

(** ** The empty candidate *)

Lemma no_word_in_empty (l : list string) :
  existsb (fun word => contains word "")
          (filter (fun word => (3 <? String.length word)%nat) l) = false.
Proof.
  induction l as [|w l IH]; [reflexivity|].
  destruct w as [|a [|b [|c [|d w]]]]; cbn [filter String.length Nat.ltb Nat.leb];
    exact IH.
Qed.

Lemma personal_info_empty_candidate (fs : FileSystem) (un em old : string) :
  _contains_personal_info (__init__ fs "" un em old)
  = truthy em && String.eqb (split_head "@" em) "".
Proof.
  unfold _contains_personal_info. cbn [username email password __init__ set_criteria
    set_common_passwords lower].
  destruct un as [|a un], em as [|b em]; try reflexivity.
  - cbn. destruct (Ascii.eqb b "@"); reflexivity.
  - cbn. destruct (Ascii.eqb b "@"); reflexivity.
Qed.

Lemma criteria_empty_candidate (fs : FileSystem) (un em old : string) :
  let self := __init__ fs "" un em old in
  criteria self =
    [("length", false); ("uppercase", false); ("lowercase", false);
     ("number", false); ("special_char", false);
     ("not_common", negb (in_list "" (common_passwords self)));
     ("no_sequential", true); ("no_repeated", true);
     ("no_personal_info", negb (_contains_personal_info self));
     ("not_similar_old", true); ("no_dict_words", true);
     ("no_keyboard_patterns", true)].
Proof.
  intros self. subst self.
  unfold __init__, set_criteria, _initialize_criteria. cbn [criteria].
  assert (S : _is_similar_to_old
                (set_common_passwords
                   {| password := ""; username := un; email := em;
                      old_password := old; common_passwords := [];
                      criteria := [] |} (_load_common_passwords fs)) = false)
    by (destruct old; reflexivity).
  assert (D : _contains_dictionary_word fs
                (set_common_passwords
                   {| password := ""; username := un; email := em;
                      old_password := old; common_passwords := [];
                      criteria := [] |} (_load_common_passwords fs)) = false).
  { unfold _contains_dictionary_word. cbn [password set_common_passwords lower].
    destruct (usr_share_dict_words fs) as [f|]; [|reflexivity].
    apply no_word_in_empty. }
  rewrite S, D. reflexivity.
Qed.

(** C3, as amended: for the empty candidate, with any context, the entropy
    is 0; the five checks length, uppercase, lowercase, number and
    special_char fail; no_sequential, no_repeated, not_similar_old,
    no_dict_words and no_keyboard_patterns pass; not_common fails only when
    the common-password list holds an empty entry and no_personal_info only
    when the email has an empty local part.  So the score lies between 5
    and 7, and it is 7 when no username and no email are given and the
    common-password file is absent. *)
Theorem analyze_empty_candidate (fs : FileSystem) (un em old : string) :
  let self := __init__ fs "" un em old in
  let r := analyze self in
  entropy r = 0%R
  /\ failed_checks r =
       (["length"; "uppercase"; "lowercase"; "number"; "special_char"]
        ++ (if in_list "" (common_passwords self) then ["not_common"] else [])
        ++ (if truthy em && String.eqb (split_head "@" em) ""
            then ["no_personal_info"] else []))%list
  /\ (5 <= score r <= 7)%Z
  /\ score (analyze (__init__ {| common_passwords_txt := None;
                                 usr_share_dict_words := usr_share_dict_words fs |}
                              "" "" "" old)) = 7%Z.
Proof.
  intros self r.
  pose proof (criteria_empty_candidate fs un em old) as C. cbv zeta in C.
  pose proof (personal_info_empty_candidate fs un em old) as P.
  fold self in C, P.
  split; [reflexivity|].
  assert (F : failed_checks r =
       (["length"; "uppercase"; "lowercase"; "number"; "special_char"]
        ++ (if in_list "" (common_passwords self) then ["not_common"] else [])
        ++ (if truthy em && String.eqb (split_head "@" em) ""
            then ["no_personal_info"] else []))%list).
  { subst r. unfold analyze. cbn [failed_checks]. rewrite C, P.
    destruct (in_list "" (common_passwords self));
      destruct (truthy em && String.eqb (split_head "@" em) ""); reflexivity. }
  split; [exact F|]. split.
  - subst r. unfold analyze. cbn [score]. rewrite C.
    destruct (in_list "" (common_passwords self));
      destruct (_contains_personal_info self); cbn; lia.
  - pose proof (criteria_empty_candidate
                  {| common_passwords_txt := None;
                     usr_share_dict_words := usr_share_dict_words fs |}
                  "" "" old) as C'.
    cbv zeta in C'. unfold analyze. cbn [score]. rewrite C'. reflexivity.
Qed.

(** C3, counterexample: with no context and neither file present, the empty
    candidate passes seven checks, so its score is not 0. *)
Lemma analyze_empty_candidate_score_not_0 :
  ~ (entropy (analyze (__init__ fs_absent "" "" "" "")) = 0%R
     /\ score (analyze (__init__ fs_absent "" "" "" "")) = 0%Z).
Proof.
  intros [_ H].
  assert (E : score (analyze (__init__ fs_absent "" "" "" "")) = 7%Z) by reflexivity.
  rewrite E in H. discriminate H.
Qed.

(** ** The classifier *)

Lemma Rgeb_true (x y : R) : (x >= y)%R -> Rgeb x y = true.
Proof. intros H. unfold Rgeb. destruct (Rge_dec x y); [reflexivity | contradiction]. Qed.

Lemma Rgeb_false (x y : R) : (x < y)%R -> Rgeb x y = false.
Proof. intros H. unfold Rgeb. destruct (Rge_dec x y); [lra | reflexivity]. Qed.

(** Between the thresholds of the second and the third row, a score of 8
    is labelled by the third row. *)
Lemma strength_label_8_third_row (entropy : R) :
  (45 <= entropy < 60)%R -> _get_strength_label 8 entropy = "strong".
Proof.
  intros [Hlo Hhi]. unfold _get_strength_label.
  rewrite (Rgeb_false entropy 75), (Rgeb_false entropy 60), (Rgeb_true entropy 45)
    by lra.
  reflexivity.
Qed.

(** C4, as amended: at score 8 and entropy 60 the label is very_strong; at
    score 8 and entropy 59 the next satisfied row is the third one (score at
    least 6 and entropy at least 45), so the label is strong. *)
Theorem strength_label_boundary :
  _get_strength_label 8 60 = "very_strong"
  /\ _get_strength_label 8 59 = "strong".
Proof.
  split.
  - unfold _get_strength_label.
    rewrite (Rgeb_false 60 75), (Rgeb_true 60 60) by lra. reflexivity.
  - apply strength_label_8_third_row. lra.
Qed.

(** C4, counterexample: at score 8 and entropy 59 the conditions of the
    fourth row hold (score at least 4, entropy at least 30), yet the label
    is neither moderate nor weak. *)
Lemma strength_label_8_59_not_moderate :
  (4 <= 8)%Z /\ (59 >= 30)%R
  /\ _get_strength_label 8 59 <> "moderate"
  /\ _get_strength_label 8 59 <> "weak".
Proof.
  assert (E : _get_strength_label 8 59 = "strong")
    by (apply strength_label_8_third_row; lra).
  rewrite E. repeat split; [lia | lra | discriminate | discriminate].
Qed.

(** ** The sequential-run detector *)

Lemma substring_past (s : string) (i n : nat) :
  (String.length s <= i)%nat -> substring i n s = "".
Proof.
  revert i n; induction s as [|a s IH]; intros i n H.
  - destruct i, n; reflexivity.
  - destruct i as [|i]; [simpl in H; lia|].
    simpl. apply IH. simpl in H. lia.
Qed.

Lemma has_sequential_chars_password (self : Password_Complexity_Checker) :
  _has_sequential_chars self
  = existsb (fun seq => contains seq (lower (password self))) sequences.
Proof. reflexivity. Qed.

(** No proper slice of a reference sequence holds a whole reference
    sequence: checked over every start and every shorter length. *)
Lemma proper_slices_silent :
  forallb
    (fun seq =>
       forallb
         (fun i =>
            forallb
              (fun n =>
                 negb (existsb (fun s => contains s (lower (slice i n seq))) sequences))
              (List.seq 0 (String.length seq)))
         (List.seq 0 (S (String.length seq))))
    sequences = true.
Proof. vm_compute. reflexivity. Qed.

Lemma proper_slice_silent (seq : string) (i n : nat) :
  In seq sequences -> (n < String.length seq)%nat ->
  existsb (fun s => contains s (lower (slice i n seq))) sequences = false.
Proof.
  intros Hseq Hn.
  destruct (Nat.le_gt_cases (String.length seq) i) as [Hi|Hi].
  - unfold slice. rewrite (substring_past seq i n Hi). reflexivity.
  - pose proof proper_slices_silent as H.
    rewrite forallb_forall in H. specialize (H seq Hseq).
    rewrite forallb_forall in H.
    assert (Ii : In i (List.seq 0 (S (String.length seq)))) by (apply in_seq; lia).
    specialize (H i Ii).
    rewrite forallb_forall in H.
    apply negb_true_iff, (H n). apply in_seq. lia.
Qed.

(** C5: the detector answers true exactly when one of the ten reference
    sequences (the alphabet and its reverse, the digit runs 01234567890 and
    9876543210, and the three letter rows of the keyboard each forward and
    reversed) occurs whole in the lowercased candidate; a candidate that is a
    shorter slice of a reference sequence, such as abc, does not trigger it. *)
Theorem has_sequential_chars_whole_sequence (self : Password_Complexity_Checker) :
  sequences =
    ["abcdefghijklmnopqrstuvwxyz"; reverse "abcdefghijklmnopqrstuvwxyz";
     "01234567890"; "9876543210";
     "qwertyuiop"; reverse "qwertyuiop";
     "asdfghjkl"; reverse "asdfghjkl";
     "zxcvbnm"; reverse "zxcvbnm"]
  /\ (_has_sequential_chars self = true
      <-> exists seq, In seq sequences /\ is_substring seq (lower (password self)))
  /\ (forall (seq : string) (i n : nat),
         In seq sequences -> (n < String.length seq)%nat ->
         password self = slice i n seq ->
         _has_sequential_chars self = false).
Proof.
  split; [reflexivity|]. split.
  - rewrite has_sequential_chars_password, existsb_exists.
    split; intros [seq [Hin H]]; exists seq; (split; [exact Hin|]);
      now apply contains_iff.
  - intros seq i n Hin Hn Hpw.
    rewrite has_sequential_chars_password, Hpw.
    now apply proper_slice_silent.
Qed.

(** C5, witness: the candidate abc is the slice of length 3 at the start of
    the alphabet. *)
Lemma has_sequential_chars_abc :
  _has_sequential_chars (checker fs_absent "abc") = false.
Proof.
  apply (proj2 (proj2 (has_sequential_chars_whole_sequence (checker fs_absent "abc")))
           "abcdefghijklmnopqrstuvwxyz" 0%nat 3%nat).
  - simpl. auto.
  - simpl. lia.
  - reflexivity.
Defined.

(** ** The entropy estimate *)

Lemma between_iff (lo hi : nat) (c : ascii) :
  between lo hi c = true <-> (lo <= ord c <= hi)%nat.
Proof.
  unfold between. rewrite andb_true_iff, !Nat.leb_le. tauto.
Qed.

Lemma is_not_alnum_iff (c : ascii) :
  is_not_alnum c = true <-> non_alphanumeric c.
Proof.
  unfold is_not_alnum, non_alphanumeric, lowercase_letter, uppercase_letter,
    decimal_digit, is_az, is_AZ, is_digit.
  rewrite negb_true_iff, !orb_false_iff, <- !not_true_iff_false, !between_iff.
  tauto.
Qed.

Lemma search_iff (cls : ascii -> bool) (P : ascii -> Prop) (s : string) :
  (forall c, cls c = true <-> P c) ->
  re_search_class cls s = true <-> exists x, char_in x s /\ P x.
Proof.
  intros H. rewrite re_search_class_iff.
  split; intros [x [Hx Hc]]; exists x; (split; [exact Hx | now apply H]).
Qed.

Lemma contributes_if (b : bool) (P : Prop) (n : Z) :
  (b = true <-> P) -> contributes P n (if b then n else 0%Z).
Proof.
  intros H. destruct b.
  - left. split; [now apply H | reflexivity].
  - right. split; [|reflexivity]. intros HP. apply H in HP. discriminate.
Qed.

Lemma pool_size_sum (pw : string) :
  pool_size pw =
    ((if re_search_class is_az pw then 26 else 0)
     + (if re_search_class is_AZ pw then 26 else 0)
     + (if re_search_class is_digit pw then 10 else 0)
     + (if re_search_class is_not_alnum pw then 32 else 0))%Z.
Proof.
  unfold pool_size.
  destruct (re_search_class is_az pw), (re_search_class is_AZ pw),
    (re_search_class is_digit pw), (re_search_class is_not_alnum pw); reflexivity.
Qed.

(** Every character falls in one of the four buckets. *)
Lemma pool_size_zero_empty (pw : string) : pool_size pw = 0%Z -> pw = "".
Proof.
  destruct pw as [|a pw]; [reflexivity|].
  rewrite pool_size_sum. cbn [re_search_class]. unfold is_not_alnum.
  destruct (is_az a), (is_AZ a), (is_digit a); cbn [orb negb];
    destruct (re_search_class is_az pw), (re_search_class is_AZ pw),
      (re_search_class is_digit pw),
      (re_search_class (fun c => negb (is_az c || is_AZ c || is_digit c)) pw);
    discriminate.
Qed.

Lemma pool_size_range (pw : string) :
  pool_size pw = 0%Z \/ (10 <= pool_size pw)%Z.
Proof.
  rewrite pool_size_sum.
  destruct (re_search_class is_az pw), (re_search_class is_AZ pw),
    (re_search_class is_digit pw), (re_search_class is_not_alnum pw);
    (now left) || (right; lia).
Qed.

Lemma pool_size_nonempty (pw : string) :
  pool_size pw <> 0%Z -> (1 <= String.length pw)%nat.
Proof.
  destruct pw; [intros H; now elim H | simpl; lia].
Qed.

Lemma ln_2_pos : (0 < ln 2)%R.
Proof. rewrite <- ln_1. apply ln_increasing; lra. Qed.

Lemma log2_pow (p : Z) (n : nat) :
  (0 < p)%Z -> log2 (IZR (p ^ Z.of_nat n)) = (INR n * log2 (IZR p))%R.
Proof.
  intros Hp. unfold log2. rewrite <- pow_IZR, ln_pow by now apply IZR_lt.
  pose proof ln_2_pos. field. lra.
Qed.

Lemma log2_pos (x : R) : (1 < x)%R -> (0 < log2 x)%R.
Proof.
  intros H. unfold log2. apply Rdiv_lt_0_compat; [|apply ln_2_pos].
  rewrite <- ln_1. apply ln_increasing; lra.
Qed.

Lemma calculate_entropy_product (self : Password_Complexity_Checker) :
  calculate_entropy self
  = (INR (String.length (password self)) * log2 (IZR (pool_size (password self))))%R.
Proof.
  unfold calculate_entropy.
  destruct (Z.eqb_spec (pool_size (password self)) 0) as [E|E].
  - rewrite (pool_size_zero_empty _ E). simpl. lra.
  - apply log2_pow. destruct (pool_size_range (password self)); lia.
Qed.

Lemma calculate_entropy_zero (self : Password_Complexity_Checker) :
  calculate_entropy self = 0%R <-> pool_size (password self) = 0%Z.
Proof.
  split.
  - intros H. destruct (Z.eq_dec (pool_size (password self)) 0) as [E|E]; [exact E|].
    exfalso. rewrite calculate_entropy_product in H.
    assert (Hl : (0 < INR (String.length (password self)))%R).
    { apply lt_0_INR. pose proof (pool_size_nonempty _ E). lia. }
    assert (Hp : (0 < log2 (IZR (pool_size (password self))))%R).
    { apply log2_pos. apply IZR_lt. destruct (pool_size_range (password self)); lia. }
    pose proof (Rmult_lt_0_compat _ _ Hl Hp). lra.
  - intros E. unfold calculate_entropy. rewrite E. reflexivity.
Qed.

(** C6: the entropy is the candidate's length times the base-two logarithm
    of the alphabet size, where the alphabet size adds 26 for a lowercase
    letter present, 26 for an uppercase letter, 10 for a digit and 32 for a
    non-alphanumeric character; it is 0 exactly when the alphabet size is 0. *)
Theorem calculate_entropy_formula (self : Password_Complexity_Checker) :
  let pw := password self in
  exists a b c d : Z,
    contributes (exists x, char_in x pw /\ lowercase_letter x) 26 a
    /\ contributes (exists x, char_in x pw /\ uppercase_letter x) 26 b
    /\ contributes (exists x, char_in x pw /\ decimal_digit x) 10 c
    /\ contributes (exists x, char_in x pw /\ non_alphanumeric x) 32 d
    /\ pool_size pw = (a + b + c + d)%Z
    /\ calculate_entropy self
       = (INR (String.length pw) * log2 (IZR (a + b + c + d)))%R
    /\ (calculate_entropy self = 0%R <-> (a + b + c + d = 0)%Z).
Proof.
  intros pw.
  exists (if re_search_class is_az pw then 26 else 0)%Z,
         (if re_search_class is_AZ pw then 26 else 0)%Z,
         (if re_search_class is_digit pw then 10 else 0)%Z,
         (if re_search_class is_not_alnum pw then 32 else 0)%Z.
  rewrite <- pool_size_sum.
  repeat split.
  - apply contributes_if, search_iff. intros c; apply between_iff.
  - apply contributes_if, search_iff. intros c; apply between_iff.
  - apply contributes_if, search_iff. intros c; apply between_iff.
  - apply contributes_if, search_iff. intros c; apply is_not_alnum_iff.
  - apply calculate_entropy_product.
  - apply calculate_entropy_zero.
  - apply calculate_entropy_zero.
Qed.

(** ** The repeated-character detector *)

Lemma re_search_triple_step (a b c : ascii) (t : string) :
  re_search_triple (String a (String b (String c t)))
  = (negb (Ascii.eqb a newline) && Ascii.eqb b a && Ascii.eqb c a)
    || re_search_triple (String b (String c t)).
Proof. reflexivity. Qed.

Lemma re_search_triple_tail (a : ascii) (s : string) :
  re_search_triple s = true -> re_search_triple (String a s) = true.
Proof.
  destruct s as [|b [|c t]]; try discriminate.
  intros H. rewrite re_search_triple_step, H. apply orb_true_r.
Qed.

(** What the pattern finds: a character other than the line feed, three
    times in a row. *)
Lemma re_search_triple_iff (s : string) :
  re_search_triple s = true
  <-> exists c pre post,
        c <> newline /\ s = pre ++ String c (String c (String c post)).
Proof.
  split.
  - induction s as [|a s IH]; [discriminate|].
    destruct s as [|b [|c t]]; try discriminate.
    rewrite re_search_triple_step, orb_true_iff. intros [H|H].
    + apply andb_true_iff in H as [H Hc]. apply andb_true_iff in H as [Ha Hb].
      apply Ascii.eqb_eq in Hb, Hc. subst b c.
      exists a, "", t. split; [|reflexivity].
      intros ->. discriminate Ha.
    + destruct (IH H) as [x [pre [post [Hx E]]]].
      exists x, (String a pre), post. split; [exact Hx|]. simpl. now rewrite E.
  - intros [c [pre [post [Hc ->]]]]. induction pre as [|a pre IH].
    + simpl append. rewrite re_search_triple_step, !Ascii.eqb_refl.
      destruct (Ascii.eqb_spec c newline) as [E|E]; [contradiction | reflexivity].
    + simpl append. now apply re_search_triple_tail.
Qed.

Lemma mem_char_middle (c : ascii) (pre t : string) :
  mem_char c (pre ++ String c t) = true.
Proof.
  induction pre as [|a pre IH]; simpl.
  - now rewrite Ascii.eqb_refl.
  - rewrite IH. apply orb_true_r.
Qed.

(** C7, as amended: the detector reads the candidate as given, without
    lowercasing; on a candidate without line feed it answers true exactly
    when some character occurs three times in a row. *)
Theorem has_repeated_chars_raw (self : Password_Complexity_Checker) :
  mem_char newline (password self) = false ->
  (_has_repeated_chars self = true <-> has_triple_run (password self)).
Proof.
  intros Hnl. unfold _has_repeated_chars, has_triple_run.
  rewrite re_search_triple_iff. split.
  - intros [c [pre [post [_ E]]]]. now exists c, pre, post.
  - intros [c [pre [post E]]]. exists c, pre, post. split; [|exact E].
    intros ->. rewrite E, mem_char_middle in Hnl. discriminate.
Qed.

(** C7, witness: a lowercase run inside a candidate. *)
Lemma has_repeated_chars_raw_xaaay :
  _has_repeated_chars (checker fs_absent "xaaay") = true <-> has_triple_run "xaaay".
Proof.
  apply (has_repeated_chars_raw (checker fs_absent "xaaay")). reflexivity.
Defined.

(** C7, counterexample: AAaa lowercases to aaaa, which holds a run of three,
    but the detector, reading AAaa itself, answers false. *)
Lemma has_repeated_chars_mixed_case :
  ~ (_has_repeated_chars (checker fs_absent "AAaa") = true
     <-> has_triple_run (lower "AAaa")).
Proof.
  intros [_ H].
  assert (R : has_triple_run (lower "AAaa")) by (exists "a"%char, "", "a"; reflexivity).
  apply H in R. discriminate R.
Qed.

(** ** The keyboard-pattern detector *)

Lemma substring_decompose (s : string) (i n : nat) :
  (i + n <= String.length s)%nat ->
  exists pre post,
    s = pre ++ substring i n s ++ post
    /\ String.length pre = i /\ String.length (substring i n s) = n.
Proof.
  revert i n; induction s as [|a s IH]; intros i n H.
  - simpl in H. assert (i = 0%nat) by lia. assert (n = 0%nat) by lia. subst.
    now exists "", "".
  - destruct i as [|i].
    + destruct n as [|n].
      * exists "", (String a s). repeat split.
      * destruct (IH 0%nat n) as [pre [post [E [Hp Hl]]]]; [simpl in *; lia|].
        destruct pre; [|discriminate Hp]. simpl in E.
        exists "", post. simpl. rewrite Hl. repeat split. now rewrite <- E.
    + destruct (IH i n) as [pre [post [E [Hp Hl]]]]; [simpl in *; lia|].
      exists (String a pre), post. simpl. rewrite Hp, Hl. repeat split.
      now rewrite <- E.
Qed.

Lemma substring_recompose (pre w post : string) :
  substring (String.length pre) (String.length w) (pre ++ w ++ post) = w.
Proof.
  induction pre as [|a pre IH]; simpl.
  - induction w as [|b w IHw]; simpl.
    + destruct post; reflexivity.
    + now rewrite IHw.
  - exact IH.
Qed.

(** C8: the detector answers true exactly when some block of four
    consecutive characters of one of the rows qwertyuiop, asdfghjkl, zxcvbnm,
    1234567890, at any position of the row, occurs forward or reversed in the
    lowercased candidate. *)
Theorem has_keyboard_pattern_iff (self : Password_Complexity_Checker) :
  _has_keyboard_pattern self = true
  <-> exists row pre w post,
        In row ["qwertyuiop"; "asdfghjkl"; "zxcvbnm"; "1234567890"]
        /\ row = pre ++ w ++ post
        /\ String.length w = 4%nat
        /\ (is_substring w (lower (password self))
            \/ is_substring (reverse w) (lower (password self))).
Proof.
  unfold _has_keyboard_pattern. cbv zeta. rewrite existsb_exists. split.
  - intros [row [Hrow H]]. apply existsb_exists in H as [i [Hi H]].
    apply in_seq in Hi.
    destruct (substring_decompose row i 4) as [pre [post [E [Hp Hl]]]]; [lia|].
    exists row, pre, (slice i 4 row), post.
    split; [exact Hrow|]. split; [exact E|]. split; [exact Hl|].
    apply orb_true_iff in H. rewrite !contains_iff in H. exact H.
  - intros [row [pre [w [post [Hrow [E [Hl H]]]]]]].
    exists row. split; [exact Hrow|].
    apply existsb_exists. exists (String.length pre). split.
    + apply in_seq. rewrite E, !length_append. lia.
    + unfold slice. rewrite <- Hl, E, substring_recompose.
      apply orb_true_iff. rewrite !contains_iff. exact H.
Qed.

(** ** Contextual checks in the report *)

Lemma failed_checks_iff (self : Password_Complexity_Checker) (k : string) :
  In k (failed_checks (analyze self)) <-> In (k, false) (criteria self).
Proof.
  unfold analyze. cbn [failed_checks]. rewrite in_map_iff. split.
  - intros [[k' v] [E H]]. apply filter_In in H as [H Hv].
    cbn in E, Hv. subst k'. destruct v; [discriminate | exact H].
  - intros H. exists (k, false). split; [reflexivity|].
    apply filter_In. split; [exact H | reflexivity].
Qed.



Lemma personal_info_criterion (fs : FileSystem) (pw un em old : string) :
  In ("no_personal_info",
      negb (_contains_personal_info (__init__ fs pw un em old)))
     (criteria (__init__ fs pw un em old)).
Proof. cbn. do 8 right. left. reflexivity. Qed.





(** C10: with a non-empty email whose local part (the text before the first
    at-sign) is empty, as for any email that starts with the at-sign, the
    personal-info detector answers true for every candidate, and the
    no_personal_info check is among the failed ones. *)
Theorem personal_info_empty_local_part (fs : FileSystem) (pw un em old : string) :
  em <> "" -> split_head "@" em = "" ->
  let self := __init__ fs pw un em old in
  _contains_personal_info self = true
  /\ In "no_personal_info" (failed_checks (analyze self))
  /\ (forall rest : string, split_head "@" (String "@" rest) = "").
Proof.
  intros Hem Hlocal self.
  assert (P : _contains_personal_info self = true).
  { unfold _contains_personal_info.
    cbn [self username email password __init__ set_criteria set_common_passwords].
    rewrite Hlocal.
    destruct em as [|a em]; [contradiction|].
    cbn [truthy negb andb]. rewrite andb_false_r.
    rewrite existsb_app. cbn [existsb lower].
    rewrite contains_empty. apply orb_true_r. }
  split; [exact P|]. split; [|reflexivity].
  apply failed_checks_iff.
  pose proof (personal_info_criterion fs pw un em old) as H.
  fold self in H. now rewrite P in H.
Qed.

(** C10, witness: an email that starts with the at-sign. *)
Lemma personal_info_empty_local_part_at_example :
  _contains_personal_info (__init__ fs_absent "Tr0ub4dor&3" "" "@example.com" "") = true.
Proof.
  refine (proj1 (personal_info_empty_local_part fs_absent "Tr0ub4dor&3" ""
                   "@example.com" "" _ eq_refl)).
  discriminate.
Defined.


(** ** Scenarios *)

Example quadruple_a_fails_no_repeated :
  In "no_repeated" (failed_checks (analyze (checker fs_absent "aaaa"))).
Proof. apply failed_checks_iff. cbn. do 7 right. left. reflexivity. Qed.

Example abcdefgh_passes_no_sequential :
  _has_sequential_chars (checker fs_absent "abcdefgh") = false.
Proof. reflexivity. Qed.

Example username_in_candidate :
  _contains_personal_info (__init__ fs_absent "alice2024!X" "alice" "" "") = true.
Proof. reflexivity. Qed.

Example old_password_extended :
  _is_similar_to_old (__init__ fs_absent "OldPass1!Extra" "" "" "OldPass1!") = true.
Proof. reflexivity. Qed.

Example reversed_row_slice :
  _has_keyboard_pattern (checker fs_absent "xxREWQ12") = true.
Proof. reflexivity. Qed.

Example default_list_entry_is_common :
  In "not_common" (failed_checks (analyze (checker fs_absent "LetMeIn"))).
Proof. apply failed_checks_iff. cbn. do 5 right. left. reflexivity. Qed.

(** * Further properties of the code *)

(** ** Looking up the criteria map *)

Lemma criteria_explicit (fs : FileSystem) (pw un em old : string) :
  let self := __init__ fs pw un em old in
  criteria self =
    [("length", (12 <=? String.length pw)%nat);
     ("uppercase", re_search_class is_AZ pw);
     ("lowercase", re_search_class is_az pw);
     ("number", re_search_class is_digit pw);
     ("special_char", re_search_class is_special pw);
     ("not_common", negb (in_list (lower pw) (_load_common_passwords fs)));
     ("no_sequential", negb (_has_sequential_chars self));
     ("no_repeated", negb (_has_repeated_chars self));
     ("no_personal_info", negb (_contains_personal_info self));
     ("not_similar_old", negb (_is_similar_to_old self));
     ("no_dict_words", negb (_contains_dictionary_word fs self));
     ("no_keyboard_patterns", negb (_has_keyboard_pattern self))].
Proof. reflexivity. Qed.

Lemma lookup_In (d : list (string * bool)) (k : string) (v : bool) :
  NoDup (map fst d) -> (In (k, v) d <-> lookup k d = Some v).
Proof.
  induction d as [|[k' v'] d IH]; intros N.
  - split; [intros [] | discriminate].
  - inversion N as [|? ? Hk' N']; subst. cbn [In lookup].
    destruct (String.eqb_spec k k') as [->|Hk].
    + split.
      * intros [E|Hin]; [now inversion E|].
        exfalso. apply Hk'. apply (in_map fst) in Hin. exact Hin.
      * intros E. left. now inversion E.
    + rewrite <- (IH N'). split.
      * intros [E|Hin]; [inversion E; congruence | exact Hin].
      * intros Hin. now right.
Qed.

Lemma check_names_NoDup : NoDup check_names.
Proof.
  unfold check_names.
  repeat (constructor; [cbn [In]; intuition discriminate|]). constructor.
Qed.

Lemma criteria_keys (fs : FileSystem) (pw un em old : string) :
  map fst (criteria (__init__ fs pw un em old)) = check_names.
Proof. reflexivity. Qed.

Lemma fails_lookup (fs : FileSystem) (pw un em old : string) (k : string) :
  fails (__init__ fs pw un em old) k
  <-> lookup k (criteria (__init__ fs pw un em old)) = Some false.
Proof.
  unfold fails. rewrite failed_checks_iff. apply lookup_In.
  rewrite criteria_keys. apply check_names_NoDup.
Qed.

Lemma Some_negb_false (b : bool) : Some (negb b) = Some false <-> b = true.
Proof. destruct b; split; intros H; try reflexivity; discriminate H. Qed.

Lemma Some_false (b : bool) : Some b = Some false <-> b = false.
Proof. destruct b; split; intros H; try reflexivity; discriminate H. Qed.

(** ** Contextual detectors *)

Lemma truthy_iff (s : string) : truthy s = true <-> s <> "".
Proof. destruct s; split; intros H; try reflexivity; try discriminate; now elim H. Qed.

Lemma append_empty_r (s : string) : s ++ "" = s.
Proof. induction s; simpl; congruence. Qed.

Lemma contains_refl (s : string) : contains s s = true.
Proof. apply contains_iff. exists "", "". simpl. now rewrite append_empty_r. Qed.

Lemma in_list_iff (x : string) (l : list string) :
  in_list x l = true <-> In x l.
Proof.
  unfold in_list. rewrite existsb_exists. split.
  - intros [y [Hy E]]. apply String.eqb_eq in E. now subst.
  - intros H. exists x. split; [exact H | apply String.eqb_refl].
Qed.

(** X1: the similarity detector answers true exactly when an old password
    was given and its lowercase form occurs in the lowercased candidate; the
    equality test of the code adds nothing to the containment test. *)
Theorem is_similar_to_old_iff (self : Password_Complexity_Checker) :
  _is_similar_to_old self = true
  <-> old_password self <> ""
      /\ is_substring (lower (old_password self)) (lower (password self)).
Proof.
  unfold _is_similar_to_old. rewrite <- truthy_iff, <- contains_iff.
  destruct (truthy (old_password self)); cbn [negb].
  - rewrite orb_true_iff. split.
    + intros [E|C]; (split; [reflexivity|]); [|exact C].
      apply String.eqb_eq in E. rewrite E. apply contains_refl.
    + intros [_ C]. now right.
  - split; [discriminate | intros [H _]; discriminate H].
Qed.

(** X2: the personal-information detector answers true exactly when a
    non-empty username occurs, lowercased, in the lowercased candidate, or a
    non-empty email has its lowercased local part occurring there. *)
Theorem contains_personal_info_iff (self : Password_Complexity_Checker) :
  _contains_personal_info self = true
  <-> (username self <> ""
       /\ is_substring (lower (username self)) (lower (password self)))
      \/ (email self <> ""
          /\ is_substring (lower (split_head "@" (email self)))
                          (lower (password self))).
Proof.
  unfold _contains_personal_info. rewrite <- !truthy_iff, <- !contains_iff.
  destruct (truthy (username self)), (truthy (email self));
    cbn [negb andb app existsb]; rewrite ?orb_false_r, ?orb_true_iff;
    intuition discriminate.
Qed.

(** X3: when the dictionary file is present, the dictionary-word detector
    answers true exactly when some line of the file, stripped and lowercased,
    has more than three characters and occurs in the lowercased candidate. *)
Theorem contains_dictionary_word_iff (fs : FileSystem)
    (self : Password_Complexity_Checker) (f : list string) :
  usr_share_dict_words fs = Some f ->
  (_contains_dictionary_word fs self = true
   <-> exists l, In l f
         /\ (3 < String.length (lower (strip l)))%nat
         /\ is_substring (lower (strip l)) (lower (password self))).
Proof.
  intros Hf. unfold _contains_dictionary_word. rewrite Hf.
  rewrite existsb_exists. split.
  - intros [w [Hw C]]. apply filter_In in Hw as [Hw Hlen].
    apply in_map_iff in Hw as [l [<- Hl]].
    exists l. split; [exact Hl|]. split; [now apply Nat.ltb_lt | now apply contains_iff].
  - intros [l [Hl [Hlen C]]]. exists (lower (strip l)). split.
    + apply filter_In. split; [|now apply Nat.ltb_lt].
      apply in_map_iff. now exists l.
    + now apply contains_iff.
Qed.

(** X3, witness: a dictionary of two lines, one of them too short. *)
Lemma contains_dictionary_word_dragon :
  _contains_dictionary_word
    {| common_passwords_txt := None;
       usr_share_dict_words := Some [line "red"; line "Dragon"] |}
    (checker fs_absent "BlueDragon7") = true
  <-> exists l, In l [line "red"; line "Dragon"]
        /\ (3 < String.length (lower (strip l)))%nat
        /\ is_substring (lower (strip l)) (lower "BlueDragon7").
Proof.
  apply (contains_dictionary_word_iff
           {| common_passwords_txt := None;
              usr_share_dict_words := Some [line "red"; line "Dragon"] |}
           (checker fs_absent "BlueDragon7") [line "red"; line "Dragon"]).
  reflexivity.
Defined.

Lemma fails_not_common (fs : FileSystem) (pw un em old : string) :
  fails (__init__ fs pw un em old) "not_common"
  <-> In (lower pw) (_load_common_passwords fs).
Proof.
  rewrite fails_lookup, <- in_list_iff.
  change (lookup "not_common" (criteria (__init__ fs pw un em old)))
    with (Some (negb (in_list (lower pw) (_load_common_passwords fs)))).
  apply Some_negb_false.
Qed.

(** X4: when the file of common passwords is present, the not_common check
    fails exactly when some line of the file, stripped and lowercased, equals
    the lowercased candidate; the built-in list is not consulted. *)
Theorem not_common_with_file (fs : FileSystem) (pw un em old : string)
    (f : list string) :
  common_passwords_txt fs = Some f ->
  (fails (__init__ fs pw un em old) "not_common"
   <-> exists l, In l f /\ lower (strip l) = lower pw).
Proof.
  intros Hf. rewrite fails_not_common. unfold _load_common_passwords.
  rewrite Hf, in_map_iff.
  split; intros [l [H1 H2]]; exists l; split; assumption.
Qed.

(** X4, witness: a file with one line, matched whatever the case of the
    candidate. *)
Lemma not_common_with_file_hunter2 :
  fails (__init__ {| common_passwords_txt := Some [line " Hunter2"];
                     usr_share_dict_words := None |} "HUNTER2" "" "" "")
        "not_common"
  <-> exists l, In l [line " Hunter2"] /\ lower (strip l) = lower "HUNTER2".
Proof.
  apply (not_common_with_file
           {| common_passwords_txt := Some [line " Hunter2"];
              usr_share_dict_words := None |} "HUNTER2" "" "" ""
           [line " Hunter2"]).
  reflexivity.
Defined.

(** ** Order of the failed checks *)

Lemma subsequence_filter {A B : Type} (g : A -> B) (p : A -> bool) (d : list A) :
  subsequence (map g (filter p d)) (map g d).
Proof.
  induction d as [|x d IH]; cbn [filter map].
  - constructor.
  - destruct (p x); cbn [map]; now constructor.
Qed.

Lemma subsequence_In {A : Type} (l m : list A) (x : A) :
  subsequence l m -> In x l -> In x m.
Proof.
  induction 1 as [|y l m _ IH|y l m _ IH]; intros H.
  - exact H.
  - right. now apply IH.
  - destruct H as [->|H]; [now left | right; now apply IH].
Qed.

Lemma subsequence_NoDup {A : Type} (l m : list A) :
  subsequence l m -> NoDup m -> NoDup l.
Proof.
  induction 1 as [|y l m S IH|y l m S IH]; intros N.
  - exact N.
  - inversion N; subst. now apply IH.
  - inversion N as [|? ? Hy N']; subst. constructor; [|now apply IH].
    intros Hin. apply Hy. now apply (subsequence_In l m).
Qed.

Lemma lookup_head (k : string) (v : bool) (d : list (string * bool)) :
  lookup k ((k, v) :: d) = Some v.
Proof. cbn [lookup]. now rewrite String.eqb_refl. Qed.

Lemma lookup_tail (k k' : string) (v : bool) (d : list (string * bool)) :
  k' <> k -> lookup k' ((k, v) :: d) = lookup k' d.
Proof.
  intros H. cbn [lookup]. destruct (String.eqb_spec k' k); [contradiction | reflexivity].
Qed.

Lemma filter_pointwise_in {A : Type} (f g : A -> bool) (l : list A) :
  (forall x, In x l -> f x = g x) -> filter f l = filter g l.
Proof.
  induction l as [|x l IH]; intros H; cbn [filter]; [reflexivity|].
  rewrite (H x (or_introl eq_refl)), IH; [reflexivity|].
  intros y Hy. apply H. now right.
Qed.

(** The names kept by the report are those the map records as failed. *)
Lemma failed_names_filter (d : list (string * bool)) :
  NoDup (map fst d) ->
  map fst (filter (fun kv : string * bool => negb (snd kv)) d)
  = filter (fun k => match lookup k d with Some false => true | _ => false end)
           (map fst d).
Proof.
  induction d as [|[k v] d IH]; intros N; [reflexivity|].
  cbn [map fst] in N. inversion N as [|? ? Hk N']; subst.
  cbn [filter map fst snd]. rewrite lookup_head.
  rewrite (filter_pointwise_in
             (fun k0 => match lookup k0 ((k, v) :: d) with
                        | Some false => true | _ => false end)
             (fun k0 => match lookup k0 d with
                        | Some false => true | _ => false end)).
  - destruct v; cbn [negb map fst]; now rewrite IH.
  - intros k' Hk'. rewrite lookup_tail; [reflexivity|].
    intros ->. contradiction.
Qed.

(** X5: the failed checks are exactly the checks that the criteria map
    records as failed, listed in the order of the map, each once: the list is
    the twelve check names, in their fixed order, filtered by failure. *)
Theorem failed_checks_ordered (fs : FileSystem) (pw un em old : string) :
  let self := __init__ fs pw un em old in
  let r := analyze self in
  failed_checks r = filter (recorded_failed self) check_names
  /\ (forall k, In k (failed_checks r)
                <-> In k check_names /\ lookup k (criteria self) = Some false)
  /\ subsequence (failed_checks r) check_names
  /\ NoDup (failed_checks r).
Proof.
  intros self r.
  assert (E : failed_checks r = filter (recorded_failed self) check_names).
  { subst r. unfold analyze. cbn [failed_checks].
    rewrite failed_names_filter.
    - subst self. now rewrite criteria_keys.
    - subst self. rewrite criteria_keys. apply check_names_NoDup. }
  assert (S : subsequence (failed_checks r) check_names).
  { subst r self. rewrite <- (criteria_keys fs pw un em old).
    apply subsequence_filter. }
  split; [exact E|]. split; [|split; [exact S|]].
  - intros k. rewrite E, filter_In. unfold recorded_failed.
    destruct (lookup k (criteria self)) as [[|]|]; intuition congruence.
  - apply (subsequence_NoDup _ _ S), check_names_NoDup.
Qed.

(** ** Lower bounds on the score *)

Lemma score_explicit (fs : FileSystem) (pw un em old : string) :
  let self := __init__ fs pw un em old in
  score (analyze self) =
    ((if (12 <=? String.length pw)%nat then 1 else 0)
     + ((if re_search_class is_AZ pw then 1 else 0)
     + ((if re_search_class is_az pw then 1 else 0)
     + ((if re_search_class is_digit pw then 1 else 0)
     + ((if re_search_class is_special pw then 1 else 0)
     + ((if negb (in_list (lower pw) (_load_common_passwords fs)) then 1 else 0)
     + ((if negb (_has_sequential_chars self) then 1 else 0)
     + ((if negb (_has_repeated_chars self) then 1 else 0)
     + ((if negb (_contains_personal_info self) then 1 else 0)
     + ((if negb (_is_similar_to_old self) then 1 else 0)
     + ((if negb (_contains_dictionary_word fs self) then 1 else 0)
     + ((if negb (_has_keyboard_pattern self) then 1 else 0) + 0))))))))))))%Z.
Proof.
  intros self.
  change (score (analyze self)) with (sum_values (criteria self)).
  pose proof (criteria_explicit fs pw un em old) as C. cbv zeta in C. fold self in C.
  rewrite C. rewrite !sum_values_cons. reflexivity.
Qed.

Lemma bit_range (b : bool) : (0 <= (if b then 1 else 0) <= 1)%Z.
Proof. destruct b; lia. Qed.

Ltac bound_bits :=
  repeat match goal with
         | |- context [if ?b then 1%Z else 0%Z] =>
             let H := fresh "Hbit" in
             pose proof (bit_range b) as H; revert H;
             generalize (if b then 1%Z else 0%Z); intros ? H
         end.

Lemma re_search_class_lower (P : ascii -> bool) (s : string) :
  re_search_class P (lower s) = re_search_class (fun c => P (lower_char c)) s.
Proof. induction s as [|a s IH]; cbn [lower re_search_class]; congruence. Qed.

Lemma re_search_class_impl (P Q : ascii -> bool) (s : string) :
  (forall c, P c = true -> Q c = true) ->
  re_search_class P s = true -> re_search_class Q s = true.
Proof.
  intros H. induction s as [|a s IH]; cbn [re_search_class]; [discriminate|].
  rewrite !orb_true_iff. intros [Ha|Hs]; [left; now apply H | right; now apply IH].
Qed.

Lemma re_search_class_or (P Q : ascii -> bool) (s : string) :
  re_search_class (fun c => P c || Q c) s
  = re_search_class P s || re_search_class Q s.
Proof.
  induction s as [|a s IH]; cbn [re_search_class]; [reflexivity|].
  rewrite IH. destruct (P a), (Q a), (re_search_class P s); reflexivity.
Qed.

Lemma prefix_head (P : ascii -> bool) (a : ascii) (n s : string) :
  P a = true -> prefix (String a n) s = true -> re_search_class P s = true.
Proof.
  intros Ha. destruct s as [|b s]; cbn [prefix re_search_class]; [discriminate|].
  destruct (ascii_dec a b) as [<-|]; [|discriminate].
  intros _. now rewrite Ha.
Qed.

Lemma contains_head (P : ascii -> bool) (a : ascii) (n s : string) :
  P a = true -> contains (String a n) s = true -> re_search_class P s = true.
Proof.
  intros Ha. induction s as [|b s IH]; cbn [contains].
  - rewrite orb_false_r. now apply prefix_head.
  - rewrite orb_true_iff. intros [H|H].
    + now apply (prefix_head P a n).
    + cbn [re_search_class]. rewrite (IH H). apply orb_true_r.
Qed.

Lemma lower_char_letter_or_digit (c : ascii) :
  (is_az (lower_char c) || is_digit (lower_char c)) = true ->
  ascii_letter_or_digit c = true.
Proof.
  destruct c as [[] [] [] [] [] [] [] []]; vm_compute; intros H;
    first [reflexivity | discriminate H].
Qed.

Lemma sequences_heads :
  forallb (fun seq => match seq with
                      | EmptyString => false
                      | String a _ => is_az a || is_digit a
                      end) sequences = true.
Proof. reflexivity. Qed.

(** A sequential run needs an ASCII letter or a digit in the candidate. *)
Lemma sequential_needs_class (self : Password_Complexity_Checker) :
  _has_sequential_chars self = true ->
  re_search_class is_az (password self)
  || re_search_class is_AZ (password self)
  || re_search_class is_digit (password self) = true.
Proof.
  unfold _has_sequential_chars. cbv zeta. rewrite existsb_exists.
  intros [seq [Hin C]].
  pose proof sequences_heads as Hh. rewrite forallb_forall in Hh.
  specialize (Hh seq Hin). destruct seq as [|a n]; [discriminate Hh|].
  apply (contains_head (fun c => is_az c || is_digit c) a n _ Hh) in C.
  rewrite re_search_class_lower in C.
  apply (re_search_class_impl _ ascii_letter_or_digit) in C;
    [|exact lower_char_letter_or_digit].
  unfold ascii_letter_or_digit in C.
  now rewrite (re_search_class_or (fun c => is_az c || is_AZ c) is_digit),
    (re_search_class_or is_az is_AZ) in C.
Qed.

(** X6: every analysis has a score of at least 1: a candidate that fails
    the no_sequential check holds an ASCII letter or a digit, so it passes
    one of uppercase, lowercase and number.  The bound is reached. *)
Theorem score_at_least_1 :
  (forall (fs : FileSystem) (pw un em old : string),
      (1 <= score (analyze (__init__ fs pw un em old)))%Z)
  /\ score (analyze (__init__ fs_hostile "zxcvbnmmm" "z" "" "z")) = 1%Z.
Proof.
  split.
  - intros fs pw un em old.
    pose proof (score_explicit fs pw un em old) as E. cbv zeta in E. rewrite E.
    pose proof (sequential_needs_class (__init__ fs pw un em old)) as S.
    change (password (__init__ fs pw un em old)) with pw in S.
    destruct (_has_sequential_chars (__init__ fs pw un em old)).
    + specialize (S eq_refl).
      destruct (re_search_class is_az pw), (re_search_class is_AZ pw),
        (re_search_class is_digit pw); try discriminate S; bound_bits; lia.
    + cbn [negb]. bound_bits. lia.
  - rewrite (score_explicit fs_hostile "zxcvbnmmm" "z" "" "z"). vm_compute. reflexivity.
Qed.

Lemma Rgeb_true_iff (x y : R) : Rgeb x y = true <-> (x >= y)%R.
Proof.
  unfold Rgeb. destruct (Rge_dec x y); split; intros H;
    try reflexivity; try assumption; try discriminate; contradiction.
Qed.

Lemma Rgeb_false_iff (x y : R) : Rgeb x y = false <-> (x < y)%R.
Proof.
  unfold Rgeb. destruct (Rge_dec x y); split; intros H;
    try reflexivity; try discriminate; lra.
Qed.

Lemma score_analyze (self : Password_Complexity_Checker) :
  score (analyze self) = sum_values (criteria self).
Proof. reflexivity. Qed.

Lemma strength_analyze (self : Password_Complexity_Checker) :
  strength (analyze self)
  = _get_strength_label (sum_values (criteria self)) (calculate_entropy self).
Proof. reflexivity. Qed.

Lemma entropy_analyze (self : Password_Complexity_Checker) :
  entropy (analyze self) = calculate_entropy self.
Proof. reflexivity. Qed.

Lemma strength_label_very_weak (s : Z) (e : R) :
  _get_strength_label s e = "very_weak" <-> (s < 2)%Z.
Proof.
  unfold _get_strength_label.
  destruct ((10 <=? s)%Z && Rgeb e 75) eqn:E1.
  { apply andb_true_iff in E1 as [E1 _]. apply Z.leb_le in E1.
    split; [discriminate | lia]. }
  destruct ((8 <=? s)%Z && Rgeb e 60) eqn:E2.
  { apply andb_true_iff in E2 as [E2 _]. apply Z.leb_le in E2.
    split; [discriminate | lia]. }
  destruct ((6 <=? s)%Z && Rgeb e 45) eqn:E3.
  { apply andb_true_iff in E3 as [E3 _]. apply Z.leb_le in E3.
    split; [discriminate | lia]. }
  destruct ((4 <=? s)%Z && Rgeb e 30) eqn:E4.
  { apply andb_true_iff in E4 as [E4 _]. apply Z.leb_le in E4.
    split; [discriminate | lia]. }
  destruct (Z.leb_spec 2 s) as [L|L]; split; intros H; try reflexivity;
    try discriminate; lia.
Qed.

(** X7: a checker built from the candidate alone, as the command-line
    entry point builds it, gives a score of at least 3, and the label
    very_weak is never produced: the two checks on the context pass, and so
    does one of no_sequential, uppercase, lowercase and number. *)
Theorem score_without_context (fs : FileSystem) (pw : string) :
  let r := analyze (__init__ fs pw "" "" "") in
  (3 <= score r)%Z /\ strength r <> "very_weak".
Proof.
  intros r.
  assert (S3 : (3 <= score r)%Z).
  { subst r. pose proof (score_explicit fs pw "" "" "") as E. cbv zeta in E.
    rewrite E. clear E.
    pose proof (sequential_needs_class (__init__ fs pw "" "" "")) as S.
    change (password (__init__ fs pw "" "" "")) with pw in S.
    change (_contains_personal_info (__init__ fs pw "" "" "")) with false.
    change (_is_similar_to_old (__init__ fs pw "" "" "")) with false.
    cbn [negb].
    destruct (_has_sequential_chars (__init__ fs pw "" "" "")).
    + specialize (S eq_refl).
      destruct (re_search_class is_az pw), (re_search_class is_AZ pw),
        (re_search_class is_digit pw); try discriminate S; bound_bits; lia.
    + cbn [negb]. bound_bits. lia. }
  split; [exact S3|].
  subst r. rewrite strength_analyze, <- score_analyze.
  intros H. apply strength_label_very_weak in H. lia.
Qed.

(** ** The ladder of labels *)

Ltac ladder :=
  repeat match goal with
         | |- context [if ?c then _ else _] => destruct c eqn:?
         end.

Ltac ladder_facts :=
  repeat match goal with
         | H : _ && _ = true |- _ => apply andb_true_iff in H; destruct H
         | H : _ && _ = false |- _ => apply andb_false_iff in H; destruct H
         | H : (_ <=? _)%Z = true |- _ => apply Z.leb_le in H
         | H : (_ <=? _)%Z = false |- _ => apply Z.leb_gt in H
         | H : Rgeb _ _ = true |- _ => apply Rgeb_true_iff in H
         | H : Rgeb _ _ = false |- _ => apply Rgeb_false_iff in H
         end.

Lemma strength_label_rank (s : Z) (e : R) :
  label_rank (_get_strength_label s e) =
    if (10 <=? s)%Z && Rgeb e 75 then 5%nat
    else if (8 <=? s)%Z && Rgeb e 60 then 4%nat
    else if (6 <=? s)%Z && Rgeb e 45 then 3%nat
    else if (4 <=? s)%Z && Rgeb e 30 then 2%nat
    else if (2 <=? s)%Z then 1%nat
    else 0%nat.
Proof. unfold _get_strength_label. ladder; reflexivity. Qed.

(** X8: the classifier is monotone: raising the score, the entropy or both
    never gives a weaker label. *)
Theorem strength_label_monotone (s s' : Z) (e e' : R) :
  (s <= s')%Z -> (e <= e')%R ->
  (label_rank (_get_strength_label s e)
   <= label_rank (_get_strength_label s' e'))%nat.
Proof.
  intros Hs He. rewrite !strength_label_rank.
  ladder; ladder_facts;
    first [lia | exfalso; lia | exfalso; lra].
Qed.

(** X8, witness: from score 7 and entropy 50 to score 9 and entropy 61. *)
Lemma strength_label_monotone_7_9 :
  (label_rank (_get_strength_label 7 50)
   <= label_rank (_get_strength_label 9 61))%nat.
Proof.
  apply (strength_label_monotone 7 9 50 61); [lia | lra].
Defined.

(** ** Bounds on the entropy *)

Lemma log2_le (x y : R) : (0 < x)%R -> (x <= y)%R -> (log2 x <= log2 y)%R.
Proof.
  intros Hx Hxy. unfold log2. pose proof ln_2_pos.
  apply Rmult_le_compat_r; [left; now apply Rinv_0_lt_compat|].
  destruct Hxy as [Hlt| ->]; [left; now apply ln_increasing | right; reflexivity].
Qed.

Lemma log2_2 : log2 2 = 1%R.
Proof. unfold log2. pose proof ln_2_pos. field. lra. Qed.

Lemma log2_pow2 (n : nat) : log2 (IZR (2 ^ Z.of_nat n)) = INR n.
Proof. rewrite log2_pow by lia. rewrite log2_2. ring. Qed.

Lemma pool_size_le_94 (pw : string) : (pool_size pw <= 94)%Z.
Proof.
  rewrite pool_size_sum.
  destruct (re_search_class is_az pw), (re_search_class is_AZ pw),
    (re_search_class is_digit pw), (re_search_class is_not_alnum pw); lia.
Qed.

Lemma log2_pool_bounds (p : Z) :
  (10 <= p <= 94)%Z -> (3 <= log2 (IZR p) <= 7)%R.
Proof.
  intros [Hlo Hhi]. split.
  - replace 3%R with (INR 3) by (simpl; lra). rewrite <- log2_pow2.
    apply log2_le; [apply IZR_lt; reflexivity | apply IZR_le; cbn; lia].
  - replace 7%R with (INR 7) by (simpl; lra). rewrite <- log2_pow2.
    apply log2_le; [apply IZR_lt; lia | apply IZR_le; cbn; lia].
Qed.

Lemma entropy_per_character (self : Password_Complexity_Checker) :
  (3 * INR (String.length (password self)) <= calculate_entropy self
   <= 7 * INR (String.length (password self)))%R.
Proof.
  rewrite calculate_entropy_product.
  pose proof (pos_INR (String.length (password self))) as Hl.
  destruct (pool_size_range (password self)) as [E|E].
  - rewrite (pool_size_zero_empty _ E). cbn [String.length INR]. lra.
  - pose proof (pool_size_le_94 (password self)) as Hhi.
    pose proof (log2_pool_bounds _ (conj E Hhi)) as [H3 H7].
    split; nra.
Qed.

(** X9: the entropy reported by an analysis lies between 3 and 7 bits per
    character of the candidate. *)
Theorem entropy_bounds (fs : FileSystem) (pw un em old : string) :
  let r := analyze (__init__ fs pw un em old) in
  (3 * INR (String.length pw) <= entropy r <= 7 * INR (String.length pw))%R.
Proof.
  intros r. subst r. rewrite entropy_analyze.
  apply (entropy_per_character (__init__ fs pw un em old)).
Qed.

Lemma strength_label_low_entropy (s : Z) (e : R) :
  (e < 30)%R ->
  _get_strength_label s e = "weak" \/ _get_strength_label s e = "very_weak".
Proof.
  intros He. unfold _get_strength_label.
  rewrite (Rgeb_false e 75), (Rgeb_false e 60), (Rgeb_false e 45),
    (Rgeb_false e 30) by lra.
  rewrite !andb_false_r. destruct (2 <=? s)%Z; [now left | now right].
Qed.

Lemma strength_label_excellent (s : Z) (e : R) :
  _get_strength_label s e = "excellent" <-> (10 <= s)%Z /\ (e >= 75)%R.
Proof.
  rewrite <- Z.leb_le, <- Rgeb_true_iff, <- andb_true_iff.
  unfold _get_strength_label. ladder; split; intros H;
    try reflexivity; discriminate H.
Qed.

(** X10: short candidates are capped: with at most four characters the
    label is weak or very_weak, and with at most ten characters it is never
    excellent, whatever the score. *)
Theorem short_candidates_capped (fs : FileSystem) (pw un em old : string) :
  let r := analyze (__init__ fs pw un em old) in
  ((String.length pw <= 4)%nat -> strength r = "weak" \/ strength r = "very_weak")
  /\ ((String.length pw <= 10)%nat -> strength r <> "excellent").
Proof.
  intros r. subst r. rewrite strength_analyze.
  pose proof (entropy_per_character (__init__ fs pw un em old)) as [_ B].
  change (password (__init__ fs pw un em old)) with pw in B.
  split; intros L; apply le_INR in L.
  - apply strength_label_low_entropy. cbn [INR] in L. lra.
  - intros H. apply strength_label_excellent in H as [_ H].
    cbn [INR] in L. lra.
Qed.

(** X10, witness: four characters of four classes. *)
Lemma short_candidates_capped_aB1 :
  strength (analyze (checker fs_absent "aB1!")) = "weak"
  \/ strength (analyze (checker fs_absent "aB1!")) = "very_weak".
Proof.
  apply (proj1 (short_candidates_capped fs_absent "aB1!" "" "" "")).
  cbn [String.length]. lia.
Defined.

(** ** Verdict, label and character classes *)

(** X11: the verdict and the label are linked one way only: a result
    labelled excellent is strong and a strong result is never labelled
    very_weak, but a strong result can be labelled weak, as for aB1! which
    passes eleven checks with less than 30 bits of entropy. *)
Theorem is_strong_and_label (fs : FileSystem) (pw un em old : string) :
  let r := analyze (__init__ fs pw un em old) in
  (strength r = "excellent" -> is_strong r = true)
  /\ (is_strong r = true -> strength r <> "very_weak")
  /\ (is_strong (analyze (checker fs_absent "aB1!")) = true
      /\ strength (analyze (checker fs_absent "aB1!")) = "weak").
Proof.
  intros r.
  pose proof (is_strong_threshold (__init__ fs pw un em old)
                (length_criteria fs pw un em old)) as T.
  fold r in T. subst r.
  rewrite strength_analyze, score_analyze in *.
  split; [|split].
  - intros H. apply strength_label_excellent in H as [H _]. apply T. lia.
  - intros H E. apply T in H. apply strength_label_very_weak in E. lia.
  - split; [reflexivity|].
    unfold checker. rewrite strength_analyze.
    pose proof (entropy_per_character (__init__ fs_absent "aB1!" "" "" ""))
      as [_ B].
    change (password (__init__ fs_absent "aB1!" "" "" "")) with "aB1!" in B.
    cbn [String.length INR] in B.
    destruct (strength_label_low_entropy
                (sum_values (criteria (__init__ fs_absent "aB1!" "" "" "")))
                (calculate_entropy (__init__ fs_absent "aB1!" "" "" "")))
      as [W|W]; [lra | exact W |].
    apply strength_label_very_weak in W.
    assert (E : sum_values (criteria (__init__ fs_absent "aB1!" "" "" "")) = 11%Z)
      by reflexivity.
    rewrite E in W. lia.
Qed.

(** X11, witness: the candidate aB1! is judged strong. *)
Lemma is_strong_and_label_aB1 :
  strength (analyze (__init__ fs_absent "aB1!" "" "" "")) <> "very_weak".
Proof.
  apply (proj1 (proj2 (is_strong_and_label fs_absent "aB1!" "" "" ""))).
  reflexivity.
Defined.

Lemma re_search_class_append (P : ascii -> bool) (s t : string) :
  re_search_class P (s ++ t) = re_search_class P s || re_search_class P t.
Proof.
  induction s as [|a s IH]; cbn [append re_search_class]; [reflexivity|].
  rewrite IH. apply orb_assoc.
Qed.

Lemma pool_size_append (s t : string) : (pool_size s <= pool_size (s ++ t))%Z.
Proof.
  rewrite !pool_size_sum, !re_search_class_append.
  destruct (re_search_class is_az s), (re_search_class is_AZ s),
    (re_search_class is_digit s), (re_search_class is_not_alnum s);
    cbn [orb];
    destruct (re_search_class is_az t), (re_search_class is_AZ t),
      (re_search_class is_digit t), (re_search_class is_not_alnum t); lia.
Qed.

(** X12: appending characters to a candidate never lowers the entropy. *)
Theorem entropy_append (fs : FileSystem) (pw t un em old : string) :
  (entropy (analyze (__init__ fs pw un em old))
   <= entropy (analyze (__init__ fs (pw ++ t) un em old)))%R.
Proof.
  rewrite !entropy_analyze, !calculate_entropy_product.
  change (password (__init__ fs pw un em old)) with pw.
  change (password (__init__ fs (pw ++ t) un em old)) with (pw ++ t).
  rewrite length_append, plus_INR.
  pose proof (pos_INR (String.length pw)) as Hl.
  pose proof (pos_INR (String.length t)) as Ht.
  pose proof (pool_size_append pw t) as Hp.
  destruct (pool_size_range pw) as [E|E].
  - rewrite (pool_size_zero_empty _ E). cbn [String.length INR append].
    rewrite Rmult_0_l, Rplus_0_l.
    destruct (pool_size_range t) as [E'|E'].
    + rewrite (pool_size_zero_empty _ E'). cbn [String.length INR]. lra.
    + pose proof (log2_pool_bounds _ (conj E' (pool_size_le_94 t))). nra.
  - pose proof (pool_size_le_94 (pw ++ t)) as Hhi.
    assert (L : (log2 (IZR (pool_size pw)) <= log2 (IZR (pool_size (pw ++ t))))%R).
    { apply log2_le; [apply IZR_lt; lia | now apply IZR_le]. }
    pose proof (log2_pool_bounds (pool_size pw) (conj E (pool_size_le_94 pw))).
    pose proof (log2_pool_bounds (pool_size (pw ++ t)) ltac:(lia)).
    nra.
Qed.


Lemma passes_class (fs : FileSystem) (pw un em old : string) :
  let self := __init__ fs pw un em old in
  (~ fails self "uppercase" <-> re_search_class is_AZ pw = true)
  /\ (~ fails self "lowercase" <-> re_search_class is_az pw = true)
  /\ (~ fails self "number" <-> re_search_class is_digit pw = true)
  /\ (~ fails self "special_char" <-> re_search_class is_special pw = true).
Proof.
  intros self. subst self. rewrite !fails_lookup.
  change (lookup "uppercase" (criteria (__init__ fs pw un em old)))
    with (Some (re_search_class is_AZ pw)).
  change (lookup "lowercase" (criteria (__init__ fs pw un em old)))
    with (Some (re_search_class is_az pw)).
  change (lookup "number" (criteria (__init__ fs pw un em old)))
    with (Some (re_search_class is_digit pw)).
  change (lookup "special_char" (criteria (__init__ fs pw un em old)))
    with (Some (re_search_class is_special pw)).
  rewrite !Some_false.
  destruct (re_search_class is_AZ pw), (re_search_class is_az pw),
    (re_search_class is_digit pw), (re_search_class is_special pw);
    intuition congruence.
Qed.

Lemma is_special_not_alnum (c : ascii) :
  is_special c = true -> is_not_alnum c = true.
Proof.
  destruct c as [[] [] [] [] [] [] [] []]; vm_compute; intros H;
    first [reflexivity | discriminate H].
Qed.

(** X13: the four character-class checks fix the alphabet of the entropy
    estimate: when special_char passes the alphabet holds the 32 symbols, and
    when uppercase, lowercase, number and special_char all pass the alphabet
    size is 94 and the entropy is the length times log2 94. *)
Theorem class_checks_and_pool (fs : FileSystem) (pw un em old : string) :
  let self := __init__ fs pw un em old in
  (~ fails self "special_char" -> (32 <= pool_size pw)%Z)
  /\ (~ fails self "uppercase" -> ~ fails self "lowercase" ->
      ~ fails self "number" -> ~ fails self "special_char" ->
      pool_size pw = 94%Z
      /\ entropy (analyze self) = (INR (String.length pw) * log2 94)%R).
Proof.
  intros self.
  destruct (passes_class fs pw un em old) as [U [L [N S]]]. fold self in U, L, N, S.
  assert (Sym : ~ fails self "special_char" -> re_search_class is_not_alnum pw = true).
  { intros H. apply S in H.
    now apply (re_search_class_impl is_special is_not_alnum _ is_special_not_alnum). }
  split.
  - intros H. apply Sym in H. rewrite pool_size_sum, H.
    destruct (re_search_class is_az pw), (re_search_class is_AZ pw),
      (re_search_class is_digit pw); lia.
  - intros HU HL HN HS.
    apply U in HU. apply L in HL. apply N in HN. apply Sym in HS.
    assert (P : pool_size pw = 94%Z).
    { rewrite pool_size_sum, HU, HL, HN, HS. reflexivity. }
    split; [exact P|].
    subst self. rewrite entropy_analyze, calculate_entropy_product.
    change (password (__init__ fs pw un em old)) with pw. now rewrite P.
Qed.

(** X13, witness: a candidate with the four classes. *)
Lemma class_checks_and_pool_aB1 : pool_size "aB1!" = 94%Z.
Proof.
  destruct (passes_class fs_absent "aB1!" "" "" "") as [U [L [N S]]].
  refine (proj1 (proj2 (class_checks_and_pool fs_absent "aB1!" "" "" "") _ _ _ _)).
  - apply U. reflexivity.
  - apply L. reflexivity.
  - apply N. reflexivity.
  - apply S. reflexivity.
Defined.

(** ** Sequential runs and keyboard patterns *)

Lemma is_substring_trans (a b c : string) :
  is_substring a b -> is_substring b c -> is_substring a c.
Proof.
  intros [p1 [q1 ->]] [p2 [q2 ->]]. exists (p2 ++ p1), (q1 ++ q2).
  induction p2 as [|x p2 IH]; cbn [append].
  - induction p1 as [|y p1 IH1]; cbn [append].
    + induction a as [|z a IHa]; cbn [append]; [reflexivity | now rewrite IHa].
    + now rewrite IH1.
  - now rewrite IH.
Qed.

Lemma contains_trans (a b c : string) :
  contains a b = true -> contains b c = true -> contains a c = true.
Proof. rewrite !contains_iff. apply is_substring_trans. Qed.

Lemma keyboard_window (self : Password_Complexity_Checker) (row : string) (i : nat) :
  In row keyboard_rows -> (i < String.length row - 3)%nat ->
  contains (slice i 4 row) (lower (password self))
  || contains (reverse (slice i 4 row)) (lower (password self)) = true ->
  _has_keyboard_pattern self = true.
Proof.
  intros Hrow Hi H. unfold _has_keyboard_pattern. cbv zeta.
  apply existsb_exists. exists row. split; [exact Hrow|].
  apply existsb_exists. exists i. split; [|exact H].
  apply in_seq. lia.
Qed.

(** X14: the no_sequential check adds little to no_keyboard_patterns: a
    candidate in which a sequential run is detected either shows a keyboard
    pattern too, or holds, lowercased, the whole alphabet forward or backward
    (and so has at least 26 characters). *)
Theorem sequential_implies_keyboard (self : Password_Complexity_Checker) :
  _has_sequential_chars self = true ->
  _has_keyboard_pattern self = true
  \/ ((is_substring "abcdefghijklmnopqrstuvwxyz" (lower (password self))
       \/ is_substring "zyxwvutsrqponmlkjihgfedcba" (lower (password self)))
      /\ (26 <= String.length (password self))%nat).
Proof.
  unfold _has_sequential_chars. cbv zeta. rewrite existsb_exists.
  intros [seq [Hin C]]. unfold sequences in Hin. cbn [In] in Hin.
  destruct Hin as [<-|[<-|[<-|[<-|[<-|[<-|[<-|[<-|[<-|[<-|[]]]]]]]]]]].
  - right. split; [left; now apply contains_iff|].
    apply contains_length in C. rewrite length_lower in C. exact C.
  - right. split; [right; now apply contains_iff|].
    apply contains_length in C. rewrite length_lower in C. exact C.
  - left. apply (keyboard_window self "1234567890" 0); [cbn; auto | cbn; lia |].
    apply orb_true_iff. left. refine (contains_trans _ _ _ _ C). reflexivity.
  - left. apply (keyboard_window self "1234567890" 5); [cbn; auto | cbn; lia |].
    apply orb_true_iff. right. refine (contains_trans _ _ _ _ C). reflexivity.
  - left. apply (keyboard_window self "qwertyuiop" 0); [cbn; auto | cbn; lia |].
    apply orb_true_iff. left. refine (contains_trans _ _ _ _ C). reflexivity.
  - left. apply (keyboard_window self "qwertyuiop" 6); [cbn; auto | cbn; lia |].
    apply orb_true_iff. right. refine (contains_trans _ _ _ _ C). reflexivity.
  - left. apply (keyboard_window self "asdfghjkl" 0); [cbn; auto | cbn; lia |].
    apply orb_true_iff. left. refine (contains_trans _ _ _ _ C). reflexivity.
  - left. apply (keyboard_window self "asdfghjkl" 5); [cbn; auto | cbn; lia |].
    apply orb_true_iff. right. refine (contains_trans _ _ _ _ C). reflexivity.
  - left. apply (keyboard_window self "zxcvbnm" 0); [cbn; auto | cbn; lia |].
    apply orb_true_iff. left. refine (contains_trans _ _ _ _ C). reflexivity.
  - left. apply (keyboard_window self "zxcvbnm" 3); [cbn; auto | cbn; lia |].
    apply orb_true_iff. right. refine (contains_trans _ _ _ _ C). reflexivity.
Qed.

(** X14, witness: a reversed keyboard row inside a candidate. *)
Lemma sequential_implies_keyboard_mnbvcxz :
  _has_keyboard_pattern (checker fs_absent "xMNBVCXZ9") = true
  \/ ((is_substring "abcdefghijklmnopqrstuvwxyz"
         (lower (password (checker fs_absent "xMNBVCXZ9")))
       \/ is_substring "zyxwvutsrqponmlkjihgfedcba"
            (lower (password (checker fs_absent "xMNBVCXZ9"))))
      /\ (26 <= String.length (password (checker fs_absent "xMNBVCXZ9")))%nat).
Proof.
  apply (sequential_implies_keyboard (checker fs_absent "xMNBVCXZ9")).
  reflexivity.
Defined.

(** ** Letter case of the candidate *)

Lemma lower_char_idempotent (c : ascii) : lower_char (lower_char c) = lower_char c.
Proof. destruct c as [[] [] [] [] [] [] [] []]; vm_compute; reflexivity. Qed.

Lemma lower_idempotent (s : string) : lower (lower s) = lower s.
Proof.
  induction s as [|a s IH]; cbn [lower]; [reflexivity|].
  now rewrite lower_char_idempotent, IH.
Qed.

Lemma detectors_on_lowercase (fs : FileSystem) (pw un em old : string) :
  let self := __init__ fs pw un em old in
  let self' := __init__ fs (lower pw) un em old in
  in_list (lower (lower pw)) (_load_common_passwords fs)
  = in_list (lower pw) (_load_common_passwords fs)
  /\ _has_sequential_chars self' = _has_sequential_chars self
  /\ _contains_personal_info self' = _contains_personal_info self
  /\ _is_similar_to_old self' = _is_similar_to_old self
  /\ _contains_dictionary_word fs self' = _contains_dictionary_word fs self
  /\ _has_keyboard_pattern self' = _has_keyboard_pattern self.
Proof.
  intros self self'. subst self self'.
  unfold _has_sequential_chars, _contains_personal_info, _is_similar_to_old,
    _contains_dictionary_word, _has_keyboard_pattern.
  cbn [password username email old_password __init__ set_criteria
       set_common_passwords].
  rewrite !lower_idempotent. repeat split; reflexivity.
Qed.

(** X15: the six checks not_common, no_sequential, no_personal_info,
    not_similar_old, no_dict_words and no_keyboard_patterns do not depend on
    the letter case of the candidate: the candidate and its lowercase form
    fail the same ones among them. *)
Theorem case_insensitive_checks (fs : FileSystem) (pw un em old k : string) :
  In k ["not_common"; "no_sequential"; "no_personal_info"; "not_similar_old";
        "no_dict_words"; "no_keyboard_patterns"] ->
  (fails (__init__ fs pw un em old) k
   <-> fails (__init__ fs (lower pw) un em old) k).
Proof.
  intros Hk. rewrite !fails_lookup.
  destruct (detectors_on_lowercase fs pw un em old) as [C [S [P [O [D K]]]]].
  cbn [In] in Hk.
  destruct Hk as [<-|[<-|[<-|[<-|[<-|[<-|[]]]]]]].
  - change (Some (negb (in_list (lower pw) (_load_common_passwords fs))) = Some false
            <-> Some (negb (in_list (lower (lower pw)) (_load_common_passwords fs)))
                = Some false).
    now rewrite C.
  - change (Some (negb (_has_sequential_chars (__init__ fs pw un em old))) = Some false
            <-> Some (negb (_has_sequential_chars (__init__ fs (lower pw) un em old)))
                = Some false).
    now rewrite S.
  - change (Some (negb (_contains_personal_info (__init__ fs pw un em old))) = Some false
            <-> Some (negb (_contains_personal_info (__init__ fs (lower pw) un em old)))
                = Some false).
    now rewrite P.
  - change (Some (negb (_is_similar_to_old (__init__ fs pw un em old))) = Some false
            <-> Some (negb (_is_similar_to_old (__init__ fs (lower pw) un em old)))
                = Some false).
    now rewrite O.
  - change (Some (negb (_contains_dictionary_word fs (__init__ fs pw un em old)))
            = Some false
            <-> Some (negb (_contains_dictionary_word fs
                              (__init__ fs (lower pw) un em old))) = Some false).
    now rewrite D.
  - change (Some (negb (_has_keyboard_pattern (__init__ fs pw un em old))) = Some false
            <-> Some (negb (_has_keyboard_pattern (__init__ fs (lower pw) un em old)))
                = Some false).
    now rewrite K.
Qed.

(** X15, witness: an upper-case keyboard row. *)
Lemma case_insensitive_checks_qwerty :
  fails (__init__ fs_absent "QWERTY" "" "" "") "not_common"
  <-> fails (__init__ fs_absent (lower "QWERTY") "" "" "") "not_common".
Proof.
  apply (case_insensitive_checks fs_absent "QWERTY" "" "" "" "not_common").
  cbn [In]. left. reflexivity.
Defined.

(** ** Entries of the common-password list *)

Lemma is_space_lower_char (c : ascii) : is_space (lower_char c) = is_space c.
Proof. destruct c as [[] [] [] [] [] [] [] []]; vm_compute; reflexivity. Qed.

Lemma lstrip_lower (s : string) : lstrip (lower s) = lower (lstrip s).
Proof.
  induction s as [|a s IH]; cbn [lower lstrip]; [reflexivity|].
  rewrite is_space_lower_char. destruct (is_space a); [exact IH | reflexivity].
Qed.

Lemma rstrip_lower (s : string) : rstrip (lower s) = lower (rstrip s).
Proof.
  induction s as [|a s IH]; cbn [lower rstrip]; [reflexivity|].
  rewrite IH, is_space_lower_char.
  destruct (rstrip s); cbn [lower]; [destruct (is_space a)|]; reflexivity.
Qed.

Lemma strip_lower (s : string) : strip (lower s) = lower (strip s).
Proof. unfold strip. now rewrite lstrip_lower, rstrip_lower. Qed.

Lemma rstrip_idempotent (s : string) : rstrip (rstrip s) = rstrip s.
Proof.
  induction s as [|a s IH]; cbn [rstrip]; [reflexivity|].
  destruct (rstrip s) as [|b r] eqn:E.
  - destruct (is_space a) eqn:Ea; cbn [rstrip]; [reflexivity | now rewrite Ea].
  - cbn [rstrip]. cbn [rstrip] in IH. now rewrite IH.
Qed.

Lemma lstrip_head (s : string) :
  lstrip s = "" \/ exists a t, lstrip s = String a t /\ is_space a = false.
Proof.
  induction s as [|a s IH]; cbn [lstrip]; [now left|].
  destruct (is_space a) eqn:E; [exact IH | right; now exists a, s].
Qed.

Lemma lstrip_rstrip_head (a : ascii) (t : string) :
  is_space a = false -> lstrip (rstrip (String a t)) = rstrip (String a t).
Proof.
  intros E. cbn [rstrip]. destruct (rstrip t); [rewrite E|]; cbn [lstrip];
    now rewrite E.
Qed.

Lemma strip_idempotent (s : string) : strip (strip s) = strip s.
Proof.
  unfold strip. destruct (lstrip_head s) as [E|[a [t [E Ha]]]]; rewrite E.
  - reflexivity.
  - rewrite (lstrip_rstrip_head a t Ha). apply rstrip_idempotent.
Qed.

Lemma default_common_passwords_normal :
  forallb (fun e => String.eqb (strip e) e && String.eqb (lower e) e)
          default_common_passwords = true.
Proof. vm_compute. reflexivity. Qed.

Lemma common_passwords_normal (fs : FileSystem) (e : string) :
  In e (_load_common_passwords fs) -> strip e = e /\ lower e = e.
Proof.
  unfold _load_common_passwords. destruct (common_passwords_txt fs) as [f|].
  - intros H. apply in_map_iff in H as [l [<- _]]. split.
    + now rewrite strip_lower, strip_idempotent.
    + apply lower_idempotent.
  - intros H. pose proof default_common_passwords_normal as N.
    rewrite forallb_forall in N. specialize (N e H).
    apply andb_true_iff in N as [N1 N2].
    apply String.eqb_eq in N1, N2. now split.
Qed.

Lemma lstrip_length (s : string) :
  (String.length (lstrip s) <= String.length s)%nat.
Proof.
  induction s as [|a s IH]; cbn [lstrip]; [lia|].
  destruct (is_space a); cbn [String.length]; lia.
Qed.

Lemma lstrip_same (s : string) :
  String.length (lstrip s) = String.length s -> lstrip s = s.
Proof.
  destruct s as [|a s]; cbn [lstrip]; [reflexivity|].
  destruct (is_space a); [|reflexivity].
  pose proof (lstrip_length s). cbn [String.length]. lia.
Qed.

Lemma rstrip_length (s : string) :
  (String.length (rstrip s) <= String.length s)%nat.
Proof.
  induction s as [|a s IH]; cbn [rstrip]; [lia|].
  destruct (rstrip s); [destruct (is_space a)|]; cbn [String.length] in *; lia.
Qed.

Lemma rstrip_same (s : string) :
  String.length (rstrip s) = String.length s -> rstrip s = s.
Proof.
  induction s as [|a s IH]; cbn [rstrip]; [reflexivity|].
  destruct (rstrip s) as [|b r] eqn:E.
  - destruct (is_space a); cbn [String.length]; [lia|].
    intros H. destruct s; [reflexivity | cbn [String.length] in H; lia].
  - cbn [String.length] in *. intros H. f_equal. apply IH. lia.
Qed.

Lemma strip_same (s : string) :
  String.length (strip s) = String.length s -> strip s = s.
Proof.
  unfold strip. intros H.
  pose proof (lstrip_length s) as L. pose proof (rstrip_length (lstrip s)) as R.
  assert (E : lstrip s = s) by (apply lstrip_same; lia).
  rewrite E in *. now apply rstrip_same.
Qed.

(** X16: entries of the common-password list are stripped of surrounding
    whitespace but the candidate is not: a candidate that begins or ends with
    a whitespace character always passes the not_common check, whatever the
    file holds. *)
Theorem padded_candidate_not_common (fs : FileSystem) (pw un em old : string) :
  strip pw <> pw -> ~ fails (__init__ fs pw un em old) "not_common".
Proof.
  intros Hpad H. apply fails_not_common in H.
  apply common_passwords_normal in H as [H _].
  rewrite strip_lower in H. apply Hpad, strip_same.
  now rewrite <- (length_lower (strip pw)), H, length_lower.
Qed.

(** X16, witness: the first entry of the built-in list followed by a space. *)
Lemma padded_candidate_not_common_password :
  ~ fails (__init__ fs_absent "password " "" "" "") "not_common".
Proof.
  apply (padded_candidate_not_common fs_absent "password " "" "" "").
  discriminate.
Defined.

(** ** The suggested password *)

Lemma lower_append (s t : string) : lower (s ++ t) = lower s ++ lower t.
Proof. induction s as [|a s IH]; cbn [append lower]; congruence. Qed.

Lemma prefix_tail_class (P : ascii -> bool) (n s t : string) :
  n <> "" -> all_class P n = true -> re_search_class P t = false ->
  prefix n (s ++ t) = prefix n s.
Proof.
  revert s. induction n as [|a n IH]; intros s Hn Ha Ht; [now elim Hn|].
  cbn [all_class] in Ha. apply andb_true_iff in Ha as [Pa Ha].
  destruct s as [|b s]; cbn [append].
  - destruct t as [|c t]; [reflexivity|]. cbn [prefix].
    cbn [re_search_class] in Ht. apply orb_false_iff in Ht as [Pc _].
    destruct (ascii_dec a c) as [->|]; [congruence | reflexivity].
  - cbn [prefix]. destruct (ascii_dec a b); [|reflexivity].
    destruct n as [|a' n]; [destruct (s ++ t), s; reflexivity|].
    apply IH; [discriminate | exact Ha | exact Ht].
Qed.

Lemma contains_no_class (P : ascii -> bool) (n t : string) :
  n <> "" -> all_class P n = true -> re_search_class P t = false ->
  contains n t = false.
Proof.
  intros Hn Ha. destruct n as [|a n]; [now elim Hn|].
  cbn [all_class] in Ha. apply andb_true_iff in Ha as [Pa _].
  induction t as [|c t IH]; cbn [contains prefix re_search_class]; [reflexivity|].
  intros Ht. apply orb_false_iff in Ht as [Pc Ht].
  destruct (ascii_dec a c) as [->|]; [congruence|]. cbn [orb]. now apply IH.
Qed.

(** A needle made of characters of a class is not found across or inside a
    tail that has none of them. *)
Lemma contains_tail_class (P : ascii -> bool) (n s t : string) :
  n <> "" -> all_class P n = true -> re_search_class P t = false ->
  contains n (s ++ t) = contains n s.
Proof.
  intros Hn Ha Ht. induction s as [|b s IH].
  - cbn [append]. rewrite (contains_no_class P n t Hn Ha Ht).
    destruct n; [now elim Hn | reflexivity].
  - change (String b s ++ t) with (String b (s ++ t)). cbn [contains].
    rewrite IH. f_equal.
    apply (prefix_tail_class P n (String b s) t Hn Ha Ht).
Qed.

(** A needle made of characters of a class is not found across or inside a
    head that has none of them. *)
Lemma contains_head_class (P : ascii -> bool) (n s t : string) :
  n <> "" -> all_class P n = true -> re_search_class P s = false ->
  contains n (s ++ t) = contains n t.
Proof.
  intros Hn Ha. destruct n as [|a n]; [now elim Hn|].
  cbn [all_class] in Ha. apply andb_true_iff in Ha as [Pa _].
  induction s as [|b s IH]; cbn [append re_search_class]; [reflexivity|].
  intros Hs. apply orb_false_iff in Hs as [Pb Hs].
  cbn [contains prefix]. destruct (ascii_dec a b) as [->|]; [congruence|].
  cbn [orb]. now apply IH.
Qed.

Lemma re_search_triple_short (s : string) :
  (String.length s < 3)%nat -> re_search_triple s = false.
Proof.
  destruct s as [|a [|b [|c s]]]; cbn [String.length]; intros H;
    try reflexivity; lia.
Qed.

(** A run of three equal characters does not straddle the border between
    characters of a class and characters outside it. *)
Lemma re_search_triple_split (P : ascii -> bool) (x y : string) :
  all_class P x = true -> re_search_class P y = false ->
  re_search_triple (x ++ y) = re_search_triple x || re_search_triple y.
Proof.
  intros Hx Hy. induction x as [|a x IH]; [reflexivity|].
  cbn [all_class] in Hx. apply andb_true_iff in Hx as [Pa Hx].
  specialize (IH Hx).
  destruct x as [|b x].
  - cbn [append]. destruct y as [|c [|d y]]; try reflexivity.
    rewrite re_search_triple_step. cbn [re_search_class] in Hy.
    apply orb_false_iff in Hy as [Pc _].
    destruct (Ascii.eqb_spec c a) as [->|]; [congruence|].
    rewrite andb_false_r. reflexivity.
  - destruct x as [|c x].
    + cbn [append] in *. destruct y as [|d y]; [reflexivity|].
      rewrite re_search_triple_step, IH. cbn [re_search_class] in Hy.
      apply orb_false_iff in Hy as [Pd _].
      destruct (Ascii.eqb_spec d a) as [->|]; [congruence|].
      rewrite !andb_false_r. reflexivity.
    + change ((String a (String b (String c x))) ++ y)
        with (String a (String b (String c (x ++ y)))).
      change ((String b (String c x)) ++ y)
        with (String b (String c (x ++ y))) in IH.
      rewrite !re_search_triple_step, IH. apply orb_assoc.
Qed.

Lemma existsb_flat_map {A B : Type} (f : B -> bool) (g : A -> list B) (l : list A) :
  existsb f (flat_map g l) = existsb (fun x => existsb f (g x)) l.
Proof.
  induction l as [|x l IH]; cbn [flat_map existsb]; [reflexivity|].
  now rewrite existsb_app, IH.
Qed.

Lemma existsb_pointwise {A : Type} (f g : A -> bool) (l : list A) :
  (forall x, f x = g x) -> existsb f l = existsb g l.
Proof.
  intros H. induction l as [|x l IH]; cbn [existsb]; [reflexivity|].
  now rewrite H, IH.
Qed.

Lemma has_keyboard_pattern_needles (self : Password_Complexity_Checker) :
  _has_keyboard_pattern self
  = existsb (fun n => contains n (lower (password self))) keyboard_needles.
Proof.
  unfold _has_keyboard_pattern, keyboard_needles. cbv zeta.
  rewrite existsb_flat_map. apply existsb_pointwise. intros row.
  rewrite existsb_flat_map. apply existsb_pointwise. intros i.
  cbn [existsb]. now rewrite orb_false_r.
Qed.

Lemma needles_absent (needles : list string) (lw lt : string) :
  forallb (needle_absent lw (String.length lt)) needles = true ->
  re_search_class is_az lt = false -> re_search_class is_digit lw = false ->
  existsb (fun n => contains n (lw ++ lt)) needles = false.
Proof.
  intros Hall Ht Hw. apply existsb_false_iff. intros n Hn.
  rewrite forallb_forall in Hall. specialize (Hall n Hn).
  unfold needle_absent in Hall.
  assert (Hne : n <> "") by (destruct n; [discriminate Hall | discriminate]).
  destruct n as [|a n']; [discriminate Hall|].
  apply orb_true_iff in Hall as [H|H]; apply andb_true_iff in H as [Hc H].
  - rewrite (contains_tail_class is_az _ lw lt Hne Hc Ht).
    now apply negb_true_iff.
  - rewrite (contains_head_class is_digit _ lw lt Hne Hc Hw).
    apply Nat.ltb_lt in H.
    destruct (contains (String a n') lt) eqn:C; [|reflexivity].
    apply contains_length in C. lia.
Qed.

Lemma digit_facts (c : ascii) :
  is_digit c = true ->
  is_az c = false /\ is_AZ c = false /\ is_not_alnum c = false
  /\ lower_char c = c.
Proof.
  destruct c as [[] [] [] [] [] [] [] []]; vm_compute; intros H;
    first [discriminate H | repeat split].
Qed.

Lemma format_02d_two_digits :
  forallb
    (fun r => match format_02d (r + 10) with
              | String d1 (String d2 EmptyString) => is_digit d1 && is_digit d2
              | _ => false
              end)
    (seq 0 90) = true.
Proof. vm_compute. reflexivity. Qed.

Lemma format_02d_shape (r : nat) :
  (r < 90)%nat ->
  exists d1 d2, format_02d (r + 10) = String d1 (String d2 "")
                /\ is_digit d1 = true /\ is_digit d2 = true.
Proof.
  intros Hr. pose proof format_02d_two_digits as H.
  rewrite forallb_forall in H.
  assert (I : In r (seq 0 90)) by (apply in_seq; lia).
  specialize (H r I).
  destruct (format_02d (r + 10)) as [|d1 [|d2 [|]]]; try discriminate H.
  apply andb_true_iff in H as [H1 H2]. now exists d1, d2.
Qed.

Lemma special_shape (i : nat) :
  (i < 8)%nat ->
  exists c, choice_char "!@#$%^&*" i = String c ""
            /\ is_special c = true /\ is_not_alnum c = true
            /\ is_az c = false /\ is_AZ c = false /\ is_digit c = false
            /\ lower_char c = c.
Proof.
  intros Hi.
  do 8 (destruct i as [|i]; [eexists; repeat split; reflexivity|]). lia.
Qed.

Lemma words_ok :
  forallb (fun a => forallb (fun n => word_ok (a ++ n)) nouns) adjectives = true.
Proof. vm_compute. reflexivity. Qed.

Lemma word_shape (i j : nat) :
  (i < 5)%nat -> (j < 5)%nat ->
  word_ok (choice adjectives i ++ choice nouns j) = true.
Proof.
  intros Hi Hj. pose proof words_ok as H. rewrite forallb_forall in H.
  assert (Ia : In (choice adjectives i) adjectives) by (apply nth_In; exact Hi).
  specialize (H _ Ia). rewrite forallb_forall in H.
  apply H. apply nth_In. exact Hj.
Qed.

Lemma append_assoc (s t u : string) : (s ++ t) ++ u = s ++ (t ++ u).
Proof. induction s as [|a s IH]; cbn [append]; congruence. Qed.

Lemma log2_94 : (25 / 4 <= log2 94)%R.
Proof.
  assert (H : (INR 25 <= INR 4 * log2 (IZR 94))%R).
  { rewrite <- log2_pow2, <- log2_pow by lia.
    apply log2_le; [apply IZR_lt; reflexivity | apply IZR_le; vm_compute; discriminate]. }
  cbn [INR] in H. lra.
Qed.

Section Suggestion.

Variable fs : FileSystem.
Variables (w : string) (d1 d2 c : ascii).

Hypothesis Hw : word_ok w = true.
Hypothesis Hd1 : is_digit d1 = true.
Hypothesis Hd2 : is_digit d2 = true.
Hypothesis Hc : is_special c = true /\ is_not_alnum c = true
                /\ is_az c = false /\ is_AZ c = false /\ is_digit c = false
                /\ lower_char c = c.

Let tail : string := String d1 (String d2 (String c "")).
Let pw : string := w ++ tail.
Let self : Password_Complexity_Checker := __init__ fs pw "" "" "".

Local Lemma word_facts :
  (9 <= String.length w)%nat
  /\ all_class is_letter w = true
  /\ re_search_class is_AZ w = true /\ re_search_class is_az w = true
  /\ re_search_class is_digit w = false
  /\ re_search_class is_digit (lower w) = false
  /\ re_search_triple w = false
  /\ forallb (needle_absent (lower w) 3) sequences = true
  /\ forallb (needle_absent (lower w) 3) keyboard_needles = true.
Proof.
  unfold word_ok in Hw. repeat (apply andb_true_iff in Hw as [Hw ?]).
  repeat split; try assumption;
    try (now apply Nat.leb_le); now apply negb_true_iff.
Qed.

Local Lemma tail_facts :
  lower tail = tail
  /\ re_search_class is_az tail = false
  /\ re_search_class is_letter tail = false
  /\ re_search_triple tail = false.
Proof.
  destruct Hc as [_ [_ [C1 [C2 [C3 C4]]]]].
  destruct (digit_facts d1 Hd1) as [A1 [B1 [_ L1]]].
  destruct (digit_facts d2 Hd2) as [A2 [B2 [_ L2]]].
  unfold tail, is_letter. cbn [lower re_search_class].
  rewrite L1, L2, C4, A1, A2, B1, B2, C1, C2. repeat split.
  rewrite re_search_triple_step.
  destruct (Ascii.eqb_spec c d1) as [E|_]; [congruence|].
  now rewrite !andb_false_r.
Qed.

Local Lemma suggestion_checks :
  (12 <=? String.length pw)%nat = true
  /\ re_search_class is_AZ pw = true
  /\ re_search_class is_az pw = true
  /\ re_search_class is_digit pw = true
  /\ re_search_class is_special pw = true
  /\ re_search_class is_not_alnum pw = true
  /\ _has_sequential_chars self = false
  /\ _has_repeated_chars self = false
  /\ _contains_personal_info self = false
  /\ _is_similar_to_old self = false
  /\ _has_keyboard_pattern self = false.
Proof.
  destruct word_facts as [W1 [W2 [W3 [W4 [W5 [W6 [W7 [W8 W9]]]]]]]].
  destruct tail_facts as [T1 [T2 [T3 T4]]].
  destruct Hc as [C0 [C1 _]].
  assert (L : lower pw = lower w ++ tail).
  { unfold pw. now rewrite lower_append, T1. }
  repeat split.
  - apply Nat.leb_le. unfold pw. rewrite length_append. unfold tail.
    cbn [String.length]. lia.
  - unfold pw. now rewrite re_search_class_append, W3.
  - unfold pw. now rewrite re_search_class_append, W4.
  - unfold pw, tail. rewrite re_search_class_append. cbn [re_search_class].
    rewrite Hd1. now rewrite orb_true_r.
  - unfold pw, tail. rewrite re_search_class_append. cbn [re_search_class].
    rewrite C0. now rewrite !orb_true_r.
  - unfold pw, tail. rewrite re_search_class_append. cbn [re_search_class].
    rewrite C1. now rewrite !orb_true_r.
  - unfold _has_sequential_chars. cbv zeta.
    change (password self) with pw. rewrite L.
    now apply needles_absent.
  - unfold _has_repeated_chars. change (password self) with pw. unfold pw.
    rewrite (re_search_triple_split is_letter w tail W2 T3), W7, T4. reflexivity.
  - rewrite has_keyboard_pattern_needles.
    change (password self) with pw. rewrite L.
    now apply needles_absent.
Qed.

Lemma suggestion_analysis :
  (forall k, fails self k -> k = "not_common" \/ k = "no_dict_words")
  /\ (10 <= score (analyze self))%Z
  /\ is_strong (analyze self) = true
  /\ strength (analyze self) = "excellent".
Proof.
  destruct suggestion_checks
    as [K1 [K2 [K3 [K4 [K5 [K6 [K7 [K8 [K9 [K10 K11]]]]]]]]]].
  assert (S : (10 <= score (analyze self))%Z).
  { pose proof (score_explicit fs pw "" "" "") as E. cbv zeta in E.
    fold self in E. rewrite E, K1, K2, K3, K4, K5, K7, K8, K9, K10, K11.
    cbn [negb]. bound_bits. lia. }
  split; [|split; [exact S|split]].
  - intros k H. unfold fails in H. apply failed_checks_iff in H.
    pose proof (criteria_explicit fs pw "" "" "") as C. cbv zeta in C.
    fold self in C. rewrite C, K1, K2, K3, K4, K5, K7, K8, K9, K10, K11 in H.
    cbn [negb In] in H.
    destruct H as [H|[H|[H|[H|[H|[H|[H|[H|[H|[H|[H|[H|[]]]]]]]]]]]]];
      try discriminate H.
    + left. now injection H.
    + right. now injection H.
  - apply (is_strong_threshold self (length_criteria fs pw "" "" "")). lia.
  - rewrite strength_analyze, <- score_analyze.
    apply strength_label_excellent. split; [exact S|].
    rewrite calculate_entropy_product. change (password self) with pw.
    assert (P : pool_size pw = 94%Z).
    { rewrite pool_size_sum, K2, K3, K4, K6. reflexivity. }
    rewrite P. apply Nat.leb_le, le_INR in K1. cbn [INR] in K1.
    pose proof log2_94. nra.
Qed.

End Suggestion.

(** X17: whatever the random draws, the password suggested by
    [create_secure_password], analysed as a candidate without context on any
    file system, fails no check other than not_common and no_dict_words (which
    depend on the files), scores at least 10, is judged strong and is labelled
    excellent. *)
Theorem suggestion_is_excellent (fs : FileSystem) (d : Draws) :
  possible d ->
  let r := analyze (__init__ fs (create_secure_password d) "" "" "") in
  (forall k, In k (failed_checks r) -> k = "not_common" \/ k = "no_dict_words")
  /\ (10 <= score r)%Z
  /\ is_strong r = true
  /\ strength r = "excellent".
Proof.
  intros [Hs [Hn [Ha Hj]]].
  destruct (special_shape _ Hs) as [c [Ec Hc]].
  destruct (format_02d_shape _ Hn) as [d1 [d2 [Ed [Hd1 Hd2]]]].
  pose proof (word_shape _ _ Ha Hj) as Hw.
  unfold create_secure_password. cbv zeta. rewrite Ec, Ed.
  rewrite <- append_assoc. cbn [append].
  exact (suggestion_analysis fs _ d1 d2 c Hw Hd1 Hd2 Hc).
Qed.

(** X17, witness: the draws that give BlueMountain15$. *)
Lemma suggestion_is_excellent_BlueMountain :
  create_secure_password
    {| draw_special := 3; draw_number := 5; draw_adjective := 1; draw_noun := 2 |}
  = "BlueMountain15$"
  /\ strength (analyze (__init__ fs_absent "BlueMountain15$" "" "" "")) = "excellent".
Proof.
  split; [reflexivity|].
  refine (proj2 (proj2 (proj2 (suggestion_is_excellent fs_absent
            {| draw_special := 3; draw_number := 5;
               draw_adjective := 1; draw_noun := 2 |} _)))).
  unfold possible. cbn. lia.
Defined.

(** ** Pattern detectors: line feeds, short candidates, extension *)

(** X18: the repeated-character detector answers true exactly when some
    character other than the line feed occurs three times in a row in the
    candidate as given; a run of line feeds is never detected. *)
Theorem has_repeated_chars_iff (self : Password_Complexity_Checker) :
  (_has_repeated_chars self = true
   <-> exists c pre post,
         c <> newline
         /\ password self = pre ++ String c (String c (String c post)))
  /\ (forall fs (n : nat),
         _has_repeated_chars
           (checker fs (string_of_list_ascii (repeat newline n))) = false).
Proof.
  split; [apply re_search_triple_iff|].
  intros fs n. unfold _has_repeated_chars, checker.
  change (password (__init__ fs (string_of_list_ascii (repeat newline n)) "" "" ""))
    with (string_of_list_ascii (repeat newline n)).
  induction n as [|n IH]; [reflexivity|].
  destruct n as [|[|n]]; try reflexivity.
  cbn [repeat string_of_list_ascii] in *.
  rewrite re_search_triple_step. rewrite IH. reflexivity.
Qed.

Lemma needles_length_4 :
  forallb (fun n => (String.length n =? 4)%nat) keyboard_needles = true.
Proof. reflexivity. Qed.

Lemma sequences_length_7 :
  forallb (fun n => (7 <=? String.length n)%nat) sequences = true.
Proof. reflexivity. Qed.

(** X19: short candidates cannot trigger the pattern detectors: below three
    characters no repeated run is found, below four no keyboard pattern,
    below seven no sequential run; and a candidate of ASCII characters with
    fewer than four of them holds no dictionary word. *)
Theorem short_candidates_no_pattern (fs : FileSystem)
    (self : Password_Complexity_Checker) :
  ((String.length (password self) < 3)%nat -> _has_repeated_chars self = false)
  /\ ((String.length (password self) < 4)%nat ->
      _has_keyboard_pattern self = false)
  /\ ((String.length (password self) < 7)%nat ->
      _has_sequential_chars self = false)
  /\ (all_class is_ascii (password self) = true ->
      (String.length (password self) < 4)%nat ->
      _contains_dictionary_word fs self = false).
Proof.
  split; [|split; [|split]].
  - apply re_search_triple_short.
  - intros L. rewrite has_keyboard_pattern_needles. apply existsb_false_iff.
    intros n Hn. pose proof needles_length_4 as H.
    rewrite forallb_forall in H. specialize (H n Hn). apply Nat.eqb_eq in H.
    destruct (contains n (lower (password self))) eqn:C; [|reflexivity].
    apply contains_length in C. rewrite length_lower in C. lia.
  - intros L. unfold _has_sequential_chars. cbv zeta.
    apply existsb_false_iff. intros n Hn. pose proof sequences_length_7 as H.
    rewrite forallb_forall in H. specialize (H n Hn). apply Nat.leb_le in H.
    destruct (contains n (lower (password self))) eqn:C; [|reflexivity].
    apply contains_length in C. rewrite length_lower in C. lia.
  - intros _ L. unfold _contains_dictionary_word.
    destruct (usr_share_dict_words fs) as [f|]; [|reflexivity].
    apply existsb_false_iff. intros n Hn.
    apply filter_In in Hn as [_ Hn]. apply Nat.ltb_lt in Hn.
    destruct (contains n (lower (password self))) eqn:C; [|reflexivity].
    apply contains_length in C. rewrite length_lower in C. lia.
Qed.

(** X19, witness: three ASCII characters of a dictionary line of four. *)
Lemma short_candidates_no_pattern_zxc :
  _contains_dictionary_word fs_hostile (checker fs_hostile "zxc") = false.
Proof.
  apply (proj2 (proj2 (proj2
           (short_candidates_no_pattern fs_hostile (checker fs_hostile "zxc"))))).
  - reflexivity.
  - cbn. lia.
Defined.

Lemma contains_extend (n s pre post : string) :
  contains n (lower s) = true -> contains n (lower (pre ++ s ++ post)) = true.
Proof.
  rewrite !contains_iff. intros H. apply (is_substring_trans _ _ _ H).
  exists (lower pre), (lower post). now rewrite !lower_append.
Qed.

Lemma existsb_impl {A : Type} (f g : A -> bool) (l : list A) :
  (forall x, f x = true -> g x = true) ->
  existsb f l = true -> existsb g l = true.
Proof.
  intros H. rewrite !existsb_exists. intros [x [Hx Hf]]. exists x. auto.
Qed.

(** X20: a detected pattern persists when a candidate of ASCII characters
    is extended by ASCII characters: if a detector answers true for the
    candidate, it answers true for the extended candidate, in the same
    context. *)
Theorem patterns_persist (fs : FileSystem) (pre pw post un em old : string) :
  all_class is_ascii (pre ++ pw ++ post) = true ->
  let self := __init__ fs pw un em old in
  let self' := __init__ fs (pre ++ pw ++ post) un em old in
  (_has_sequential_chars self = true -> _has_sequential_chars self' = true)
  /\ (_has_repeated_chars self = true -> _has_repeated_chars self' = true)
  /\ (_contains_personal_info self = true -> _contains_personal_info self' = true)
  /\ (_is_similar_to_old self = true -> _is_similar_to_old self' = true)
  /\ (_contains_dictionary_word fs self = true
      -> _contains_dictionary_word fs self' = true)
  /\ (_has_keyboard_pattern self = true -> _has_keyboard_pattern self' = true).
Proof.
  intros _ self self'. subst self self'.
  assert (X : forall n, contains n (lower pw) = true
                        -> contains n (lower (pre ++ pw ++ post)) = true)
    by (intros n; apply contains_extend).
  repeat split.
  - unfold _has_sequential_chars. cbv zeta.
    cbn [password __init__ set_criteria set_common_passwords].
    now apply existsb_impl.
  - unfold _has_repeated_chars.
    cbn [password __init__ set_criteria set_common_passwords].
    rewrite !re_search_triple_iff. intros [c [p [q [Hc ->]]]].
    exists c, (pre ++ p), (q ++ post). split; [exact Hc|].
    rewrite !append_assoc. reflexivity.
  - unfold _contains_personal_info.
    cbn [password username email __init__ set_criteria set_common_passwords].
    destruct (negb (truthy un) && negb (truthy em)); [discriminate|].
    now apply existsb_impl.
  - unfold _is_similar_to_old.
    cbn [password old_password __init__ set_criteria set_common_passwords].
    destruct (negb (truthy old)); [discriminate|].
    rewrite !orb_true_iff. intros [E|C]; right; apply X; [|exact C].
    apply String.eqb_eq in E. rewrite E. apply contains_refl.
  - unfold _contains_dictionary_word.
    cbn [password __init__ set_criteria set_common_passwords].
    destruct (usr_share_dict_words fs); [|discriminate].
    now apply existsb_impl.
  - rewrite !has_keyboard_pattern_needles.
    cbn [password __init__ set_criteria set_common_passwords].
    now apply existsb_impl.
Qed.

(** X20, witness: a keyboard row inside a longer candidate. *)
Lemma patterns_persist_asdf :
  _has_keyboard_pattern (__init__ fs_absent ("My" ++ "asdf" ++ "2024!") "" "" "")
  = true.
Proof.
  apply (proj2 (proj2 (proj2 (proj2 (proj2
           (patterns_persist fs_absent "My" "asdf" "2024!" "" "" ""
                             eq_refl)))))).
  reflexivity.
Defined.
